(** * GLOW driver: the text parser, the date encoding and the input line

    A shallow embedding of [glow_basic.py]: [glowparse] (the reader of the
    text that the GLOW executable prints), [glowdate] (the date fields of the
    input line) and [maxwellian] (the line piped to the executable).

    Python strings are sequences of code points; they are modelled by
    [string], one [ascii] per code point below 256. *)

From Stdlib Require Import String Ascii List ZArith Bool Lia PeanoNat.
From Stdlib Require Import DecimalString DecimalPos DecimalZ PrimFloat Uint63.
Import ListNotations.
Open Scope string_scope.
Open Scope list_scope.
Open Scope nat_scope.

(** ** Exceptions and results *)

Inductive exn : Type :=
| AssertionError
| ValueError
| IndexError
| RuntimeError
| CalledProcessError
| TimeoutExpired
| OverflowError.

Inductive result (A : Type) : Type :=
| Ok (a : A)
| Raise (e : exn).
Arguments Ok {A} a.
Arguments Raise {A} e.

Definition raises {A : Type} (r : result A) : Prop :=
  match r with
  | Ok _ => False
  | Raise _ => True
  end.

Definition rbind {A B : Type} (r : result A) (k : A -> result B) : result B :=
  match r with
  | Ok a => k a
  | Raise e => Raise e
  end.

Declare Scope res_scope.
Delimit Scope res_scope with res.
Notation "x <-- r ;; k" := (rbind r (fun x => k))
  (at level 61, r at next level, right associativity) : res_scope.

(** ** Text primitives *)

(** [str.isspace] on one code point below 256: tab to carriage return, the
    four separators 28 to 31, the space, NEL and the no-break space. *)
Definition is_space (c : ascii) : bool :=
  let n := nat_of_ascii c in
  (((9 <=? n) && (n <=? 13)) || ((28 <=? n) && (n <=? 32))
   || (n =? 133) || (n =? 160))%nat.

Definition newline : ascii := ascii_of_nat 10.

(** The lines that iterating over [io.StringIO(raw)] yields, in order.  A line
    ends at each line feed; the terminator is dropped here, since the only
    consumer ([split_line]) strips it. *)
Fixpoint readlines (s : string) : list string :=
  match s with
  | EmptyString => []
  | String c s' =>
      if Ascii.eqb c newline then EmptyString :: readlines s'
      else match readlines s' with
           | [] => [String c EmptyString]
           | l :: ls => String c l :: ls
           end
  end.

(** [str.split()] with no argument: maximal runs of non-space characters.
    [cur] is the word being read. *)
Fixpoint split_ws_from (cur : string) (s : string) : list string :=
  match s with
  | EmptyString =>
      match cur with
      | EmptyString => []
      | _ => [cur]
      end
  | String c s' =>
      if is_space c then
        match cur with
        | EmptyString => split_ws_from EmptyString s'
        | _ => cur :: split_ws_from EmptyString s'
        end
      else split_ws_from (cur ++ String c EmptyString)%string s'
  end.

Definition split_ws (s : string) : list string := split_ws_from EmptyString s.

(** [line.split("#")[0]]: the text before the first comment mark. *)
Fixpoint before_comment (s : string) : string :=
  match s with
  | EmptyString => EmptyString
  | String c s' =>
      if Ascii.eqb c "#"%char then EmptyString
      else String c (before_comment s')
  end.

(** numpy's [LineSplitter] with the default delimiter and comment mark: chop
    the comment, strip, split at white space.  (The strip of blanks and line
    ends is subsumed by the split.) *)
Definition split_line (line : string) : list string :=
  split_ws (before_comment line).

(** ** Integers as text *)

(** [str(z)] for a Python int: decimal digits, with a minus sign below zero. *)
Definition str_int (z : Z) : string := NilZero.string_of_int (Z.to_int z).

(** [s.rjust(width, "0")] for a string of digits: the padding of a ["%0Nd"]
    conversion of a non-negative number. *)
Definition zero_pad (width : nat) (s : string) : string :=
  (String.concat "" (repeat "0" (width - String.length s)) ++ s)%string.

(** [int(s)] for the plain decimal spellings; [None] where it raises. *)
Definition int_of_str (s : string) : option Z :=
  option_map Z.of_int (NilZero.int_of_string s).

(** One field of a white-space separated line: not empty, no white space. *)
Fixpoint no_space (s : string) : bool :=
  match s with
  | EmptyString => true
  | String c s' => negb (is_space c) && no_space s'
  end.

Definition is_field (s : string) : bool :=
  negb (String.eqb s EmptyString) && no_space s.

(** ** Timestamps and glowdate *)

(** A naive [datetime.datetime]. *)
Record datetime : Type := mkDatetime {
  year : Z;
  month : Z;
  day : Z;
  hour : Z;
  minute : Z;
  second : Z;
  microsecond : Z
}.

Definition is_leap (y : Z) : bool :=
  ((y mod 4 =? 0) && (negb (y mod 100 =? 0) || (y mod 400 =? 0)))%Z.

Definition DAYS_IN_MONTH : list Z :=
  [-1; 31; 28; 31; 30; 31; 30; 31; 31; 30; 31; 30; 31]%Z.

Definition DAYS_BEFORE_MONTH : list Z :=
  [-1; 0; 31; 59; 90; 120; 151; 181; 212; 243; 273; 304; 334]%Z.

Definition days_in_month (y m : Z) : Z :=
  if ((m =? 2)%Z && is_leap y)%bool then 29%Z
  else nth (Z.to_nat m) DAYS_IN_MONTH 0%Z.

Definition days_before_month (y m : Z) : Z :=
  (nth (Z.to_nat m) DAYS_BEFORE_MONTH 0
   + (if ((2 <? m) && is_leap y)%bool then 1 else 0))%Z.

(** The values that the constructor of [datetime] accepts. *)
Definition valid_datetime (t : datetime) : bool :=
  ((1 <=? year t) && (year t <=? 9999)
   && (1 <=? month t) && (month t <=? 12)
   && (1 <=? day t) && (day t <=? days_in_month (year t) (month t))
   && (0 <=? hour t) && (hour t <=? 23)
   && (0 <=? minute t) && (minute t <=? 59)
   && (0 <=? second t) && (second t <=? 59)
   && (0 <=? microsecond t) && (microsecond t <=? 999999))%Z.

(** [t.timetuple().tm_yday] *)
Definition yday (t : datetime) : Z :=
  (days_before_month (year t) (month t) + day t)%Z.

(** [t.strftime("%j")] *)
Definition strftime_j (t : datetime) : string :=
  zero_pad 3 (str_int (yday t)).

(** [t.replace(microsecond=us)] *)
Definition replace_microsecond (t : datetime) (us : Z) : datetime :=
  mkDatetime (year t) (month t) (day t) (hour t) (minute t) (second t) us.

Definition glowdate (t : datetime) : string * string :=
  let idate := (str_int (year t) ++ strftime_j t)%string in
  let utsec := str_int (hour t * 3600 + minute t * 60 + second t)%Z in
  (idate, utsec).

(** The date field as the specification words it: the year on four digits,
    then the day of the year on three. *)
Definition spec_idate (t : datetime) : string :=
  (zero_pad 4 (str_int (year t)) ++ zero_pad 3 (str_int (yday t)))%string.

(** [t - timedelta(days=1)]; below the first day of year 1 it overflows. *)
Definition minus_one_day (t : datetime) : result datetime :=
  let with_date y m d :=
    mkDatetime y m d (hour t) (minute t) (second t) (microsecond t) in
  if (1 <? day t)%Z then Ok (with_date (year t) (month t) (day t - 1)%Z)
  else if (1 <? month t)%Z then
    Ok (with_date (year t) (month t - 1)%Z
          (days_in_month (year t) (month t - 1)))
  else if (1 <? year t)%Z then Ok (with_date (year t - 1)%Z 12%Z 31%Z)
  else Raise OverflowError.

(** [t.isoformat()] *)
Definition isoformat (t : datetime) : string :=
  let p w z := zero_pad w (str_int z) in
  (p 4 (year t) ++ "-" ++ p 2 (month t) ++ "-" ++ p 2 (day t) ++ "T"
   ++ p 2 (hour t) ++ ":" ++ p 2 (minute t) ++ ":" ++ p 2 (second t)
   ++ (if (microsecond t =? 0)%Z then ""
       else "." ++ p 6 (microsecond t)))%string.

(** ** The state of the text stream *)

(** The lines of the [StringIO] that have not been read yet. *)
Definition stream : Type := list string.

Definition IO (A : Type) : Type := stream -> result A * stream.

Definition ret {A : Type} (a : A) : IO A := fun s => (Ok a, s).

Definition raise {A : Type} (e : exn) : IO A := fun s => (Raise e, s).

Definition bind {A B : Type} (m : IO A) (k : A -> IO B) : IO B :=
  fun s =>
    match m s with
    | (Ok a, s') => k a s'
    | (Raise e, s') => (Raise e, s')
    end.

Definition lift {A : Type} (r : result A) : IO A := fun s => (r, s).

Definition assert (b : bool) : IO unit :=
  if b then ret tt else raise AssertionError.

Declare Scope io_scope.
Delimit Scope io_scope with io.
Notation "x <- m ;; k" := (bind m (fun x => k))
  (at level 61, m at next level, right associativity) : io_scope.
Notation "m ;;; k" := (bind m (fun _ => k))
  (at level 61, right associativity) : io_scope.

(** ** numpy.genfromtxt, as [glowparse] calls it *)

(** [next(fhd)] repeated [n] times; [None] is [StopIteration]. *)
Fixpoint skip_lines (n : nat) (fhd : stream) : option stream :=
  match n with
  | O => Some fhd
  | S k =>
      match fhd with
      | [] => None
      | _ :: t => skip_lines k t
      end
  end.

(** "Keep on until we find the first valid values": the first line that
    splits into at least one field, and the stream after it. *)
Fixpoint first_valid (fhd : stream) : option (string * stream) :=
  match fhd with
  | [] => None
  | line :: t =>
      match split_line line with
      | [] => first_valid t
      | _ :: _ => Some (line, t)
      end
  end.

(** The row loop: empty lines are skipped, a line with another number of
    fields than [nbcols] is recorded as invalid, any other line is stored;
    the loop stops as soon as [max_rows] rows are stored, leaving the rest of
    the stream unread. *)
Fixpoint parse_lines (nbcols max_rows : nat) (fhd : stream)
    (rows : list (list string)) (invalid : list nat)
    : list (list string) * list nat * stream :=
  match fhd with
  | [] => (rows, invalid, [])
  | line :: t =>
      let values := split_line line in
      let nbvalues := length values in
      if nbvalues =? 0 then parse_lines nbcols max_rows t rows invalid
      else if negb (nbvalues =? nbcols) then
        parse_lines nbcols max_rows t rows (invalid ++ [nbvalues])
      else
        let rows' := rows ++ [values] in
        if length rows' =? max_rows then (rows', invalid, t)
        else parse_lines nbcols max_rows t rows' invalid
  end.

(** The rows that one call collects and where it leaves the stream, before
    any check or conversion.  An exhausted stream gives no row. *)
Definition collect (skip_header max_rows : nat) (fhd : stream)
    : nat * list (list string) * list nat * stream :=
  match
    match skip_lines skip_header fhd with
    | None => None
    | Some t => first_valid t
    end
  with
  | None => (0, [], [], [])
  | Some (first_line, t) =>
      let nbcols := length (split_line first_line) in
      let '(rows, invalid, rest) :=
        parse_lines nbcols max_rows (first_line :: t) [] [] in
      (nbcols, rows, invalid, rest)
  end.

(** The parts of what a call collects. *)
Definition nbcols_of (c : nat * list (list string) * list nat * stream) : nat :=
  let '(nbcols, _, _, _) := c in nbcols.

Definition rows_of (c : nat * list (list string) * list nat * stream)
    : list (list string) :=
  let '(_, rows, _, _) := c in rows.

Definition invalid_of (c : nat * list (list string) * list nat * stream)
    : list nat :=
  let '(_, _, invalid, _) := c in invalid.

Definition rest_of (c : nat * list (list string) * list nat * stream)
    : stream :=
  let '(_, _, _, rest) := c in rest.

(** The three calls of [glowparse] on a text: the header row, the table of
    profiles and the table of emission rates, each starting where the one
    before stopped. *)
Definition header_read (raw : string) :=
  collect 1 1 (readlines raw).

Definition block1_read (raw : string) :=
  collect 1 102 (rest_of (header_read raw)).

Definition block2_read (raw : string) :=
  collect 1 102 (rest_of (block1_read raw)).

(** A line of exactly [n] fields. *)
Definition has_fields (n : nat) (line : string) : bool :=
  length (split_line line) =? n.

(** A data block of the text: 102 lines, each of an altitude and [ncols]
    data columns. *)
Definition block_ok (ncols : nat) (rows : list string) : bool :=
  (length rows =? 102) && forallb (has_fields (S ncols)) rows.

(** The first field of the first row. *)
Definition first_field (rows : list (list string)) : string :=
  hd EmptyString (hd [] rows).

(** The layout that the GLOW executable prints: an echo line, the header row,
    and two blocks, each a line of column titles followed by its rows; what
    follows the second block is [post]. *)
Definition glow_lines (echo hdr title1 : string) (rows1 : list string)
    (title2 : string) (rows2 post : list string) : stream :=
  echo :: hdr :: title1 :: rows1 ++ title2 :: rows2 ++ post.

(** The layout as the specification words it: an echo line, the header row,
    and the rows of the two blocks. *)
Definition spec_lines (echo hdr : string) (rows1 rows2 : list string)
    : stream :=
  echo :: hdr :: rows1 ++ rows2.

(** A wavelength label: a number, or a symbolic band. *)
Inductive label : Type :=
| LInt (z : Z)
| LStr (s : string).

(** [str(x)] of a label. *)
Definition label_text (x : label) : string :=
  match x with
  | LInt z => str_int z
  | LStr s => s
  end.

Definition is_text (x : label) : bool :=
  match x with
  | LInt _ => false
  | LStr _ => true
  end.

(** [np.asarray] of a list of labels, as xarray applies it to a coordinate:
    one text among the labels makes the array an array of texts, each
    number replaced by its text; a list of numbers stays as it is. *)
Definition asarray_labels (l : list label) : list label :=
  if existsb is_text l then map (fun x => LStr (label_text x)) l else l.

Fixpoint assoc {A : Type} (k : string) (l : list (string * A)) : option A :=
  match l with
  | [] => None
  | (k', a) :: l' => if String.eqb k k' then Some a else assoc k l'
  end.

Section Glow.

(** The numbers of the tables are IEEE doubles.  The parser only converts
    fields and compares two of them, so the development is parametric in the
    type of doubles, in the conversion of a field ([float(field)], and nan
    where [float] raises: numpy's loose conversion) and in the comparison
    [==]. *)
Variable F : Type.
Variable to_float : string -> F.
Variable float_eq : F -> F -> bool.

(** The text of a double inside an f-string: [format(x, "")]. *)
Variable str_float : F -> string.

(** An array of dimension 0, 1 or 2 (row-major). *)
Inductive ndarray : Type :=
| Arr0 (x : F)
| Arr1 (v : list F)
| Arr2 (m : list (list F)).

(** [np.squeeze] of the [nrows x nbcols] table of converted rows. *)
Definition squeeze (nbcols : nat) (rows : list (list F)) : ndarray :=
  match rows with
  | [] => Arr1 []
  | [r] =>
      match r with
      | [x] => Arr0 x
      | _ => Arr1 r
      end
  | _ => if nbcols =? 1 then Arr1 (concat rows) else Arr2 rows
  end.

Definition genfromtxt (skip_header max_rows : nat) : IO ndarray :=
  fun fhd =>
    let '(nbcols, rows, invalid, rest) := collect skip_header max_rows fhd in
    match invalid with
    | _ :: _ => (Raise ValueError, rest)
    | [] => (Ok (squeeze nbcols (map (map to_float) rows)), rest)
    end.

(** [a.size] *)
Definition size (a : ndarray) : nat :=
  match a with
  | Arr0 _ => 1
  | Arr1 v => length v
  | Arr2 m =>
      length m * match m with
                 | [] => 0
                 | r :: _ => length r
                 end
  end.

(** [a.shape[1]] *)
Definition shape1 (a : ndarray) : result Z :=
  match a with
  | Arr2 (r :: _) => Ok (Z.of_nat (length r))
  | Arr2 [] => Ok 0%Z
  | _ => Raise IndexError
  end.

Fixpoint column (j : nat) (m : list (list F)) : result (list F) :=
  match m with
  | [] => Ok []
  | r :: m' =>
      match nth_error r j, column j m' with
      | Some x, Ok c => Ok (x :: c)
      | _, _ => Raise IndexError
      end
  end.

(** [a[:, j]] *)
Definition get_column (a : ndarray) (j : nat) : result (list F) :=
  match a with
  | Arr2 m => column j m
  | _ => Raise IndexError
  end.

(** [a[:, 1:]] *)
Definition drop_column (a : ndarray) : result (list (list F)) :=
  match a with
  | Arr2 m => Ok (map (skipn 1) m)
  | _ => Raise IndexError
  end.

(** [a[i, j]] *)
Definition get_item2 (a : ndarray) (i j : nat) : result F :=
  match a with
  | Arr2 m =>
      match nth_error m i with
      | Some r =>
          match nth_error r j with
          | Some x => Ok x
          | None => Raise IndexError
          end
      | None => Raise IndexError
      end
  | _ => Raise IndexError
  end.

(** [v[i]] *)
Definition get_item1 (v : list F) (i : nat) : result F :=
  match nth_error v i with
  | Some x => Ok x
  | None => Raise IndexError
  end.

(** [m.T] for a table of [ncols] columns. *)
Fixpoint zip_cons (r : list F) (cols : list (list F)) : list (list F) :=
  match r, cols with
  | x :: r', c :: cols' => (x :: c) :: zip_cons r' cols'
  | _, _ => []
  end.

Fixpoint transpose (ncols : nat) (m : list (list F)) : list (list F) :=
  match m with
  | [] => repeat [] ncols
  | r :: m' => zip_cons r (transpose ncols m')
  end.

(** ** The activity indices *)

(** One row of the frame that [geomagindices.get_indices] returns. *)
Record IndexRow : Type := mkIndexRow {
  f107 : F;
  f107s : F;
  Ap : F
}.

Definition DataFrame : Type := list IndexRow.

(** [column.iloc[i]] *)
Definition iloc (df : DataFrame) (i : nat) : result IndexRow :=
  match nth_error df i with
  | Some r => Ok r
  | None => Raise IndexError
  end.

(** ** The xarray objects that [glowparse] builds *)

Inductive attr : Type :=
| AttrFrame (ip : DataFrame)
| AttrStr (s : string)
| AttrPair (a b : F).

Inductive coord : Type :=
| CoordF (v : list F)
| CoordL (v : list label).

Definition coord_size (c : coord) : nat :=
  match c with
  | CoordF v => length v
  | CoordL v => length v
  end.

(** A coordinate as xarray stores it. *)
Definition as_coordinate (c : coord) : coord :=
  match c with
  | CoordF v => CoordF v
  | CoordL v => CoordL (asarray_labels v)
  end.

Definition as_coordinates (cs : list (string * coord))
    : list (string * coord) :=
  map (fun kc => (fst kc, as_coordinate (snd kc))) cs.

Inductive variable : Type :=
| Var1 (dim : string) (v : list F)
| Var2 (dim0 dim1 : string) (m : list (list F)).

Record DataArray : Type := mkDataArray {
  da_name : string;
  da_var : variable;
  da_coords : list (string * coord)
}.

Record Dataset : Type := mkDataset {
  coords : list (string * coord);
  data_vars : list (string * variable);
  attrs : list (string * attr)
}.

(** [ds.attrs[k] = v] *)
Fixpoint dict_set (k : string) (v : attr) (d : list (string * attr))
    : list (string * attr) :=
  match d with
  | [] => [(k, v)]
  | (k', v') :: d' =>
      if String.eqb k k' then (k, v) :: d' else (k', v') :: dict_set k v d'
  end.

Definition set_attr (ds : Dataset) (k : string) (v : attr) : Dataset :=
  mkDataset (coords ds) (data_vars ds) (dict_set k v (attrs ds)).

(** The length of an axis agrees with the coordinate of that name, when there
    is one. *)
Definition axis_fits (cs : list (string * coord)) (dim : string) (n : nat)
    : bool :=
  match assoc dim cs with
  | Some c => n =? coord_size c
  | None => true
  end.

Definition var_fits (cs : list (string * coord)) (v : variable) : bool :=
  match v with
  | Var1 dim x => axis_fits cs dim (length x)
  | Var2 dim0 dim1 m =>
      axis_fits cs dim0 (length m)
      && forallb (fun r => axis_fits cs dim1 (length r)) m
  end.

(** [xarray.Dataset(d, coords=cs)]: conflicting sizes are a [ValueError]. *)
Definition Dataset_new (d : list (string * variable))
    (cs : list (string * coord)) : result Dataset :=
  let cs := as_coordinates cs in
  if forallb (fun kv => var_fits cs (snd kv)) d
  then Ok (mkDataset cs d [])
  else Raise ValueError.

(** [xarray.DataArray(data, coords=cs, dims=[dim0, dim1], name=name)] *)
Definition DataArray_new (data : list (list F)) (cs : list (string * coord))
    (dim0 dim1 name : string) : result DataArray :=
  let cs := as_coordinates cs in
  let v := Var2 dim0 dim1 data in
  if var_fits cs v then Ok (mkDataArray name v cs) else Raise ValueError.

(** [xarray.merge((ds, da))] where the coordinates that [da] shares with
    [ds] are the very same arrays: the variable is added under its name,
    with the coordinates that [ds] does not have yet. *)
Definition merge (ds : Dataset) (da : DataArray) : Dataset :=
  mkDataset
    (coords ds
     ++ filter (fun kc => match assoc (fst kc) (coords ds) with
                          | Some _ => false
                          | None => true
                          end) (da_coords da))
    (data_vars ds ++ [(da_name da, da_var da)])
    (attrs ds).

(** [ds[name]] *)
Definition getitem (ds : Dataset) (name : string) : option variable :=
  assoc name (data_vars ds).

(** [ds[name][i]] for a profile. *)
Definition profile_at (ds : Dataset) (name : string) (i : nat) : option F :=
  match getitem ds name with
  | Some (Var1 _ v) => nth_error v i
  | _ => None
  end.

Definition is_profile (v : variable) : bool :=
  match v with
  | Var1 _ _ => true
  | Var2 _ _ _ => false
  end.

(** The profiles and the arrays of dimension 2 among the data variables. *)
Definition profiles (ds : Dataset) : list (string * variable) :=
  filter (fun kv => is_profile (snd kv)) (data_vars ds).

Definition tables (ds : Dataset) : list (string * variable) :=
  filter (fun kv => negb (is_profile (snd kv))) (data_vars ds).

(** ** glowparse *)

Definition glow_var : list string :=
  ["Tn"; "O"; "N2"; "NO"; "NeIn"; "NeOut"; "ionrate"; "O+"; "O2+"; "NO+";
   "N2D"; "pedersen"; "hall"].

Definition wavelen : list label :=
  [LInt 3371; LInt 4278; LInt 5200; LInt 5577; LInt 6300; LInt 7320;
   LInt 10400; LInt 3644; LInt 7774; LInt 8446; LInt 3726; LStr "LBH";
   LInt 1356; LInt 1493; LInt 1304].

Definition Nalt : nat := 102.

Definition glowparse_io : IO Dataset :=
  (header <- genfromtxt 1 1 ;;
   assert (size header =? 10) ;;;
   dat <- genfromtxt 1 Nalt ;;
   alt_km <- lift (get_column dat 0) ;;
   ncols <- lift (shape1 dat) ;;
   (if negb (Z.of_nat (length glow_var) =? ncols - 1)%Z
    then raise ValueError else ret tt) ;;;
   cols <- lift (drop_column dat) ;;
   let d := map (fun kv => (fst kv, Var1 "alt_km" (snd kv)))
                (combine glow_var (transpose (Z.to_nat (ncols - 1)) cols)) in
   iono <- lift (Dataset_new d [("alt_km", CoordF alt_km)]) ;;
   assert (length glow_var =? length (data_vars iono)) ;;;
   dat <- genfromtxt 1 Nalt ;;
   x <- lift (get_item2 dat 0 0) ;;
   a0 <- lift (get_item1 alt_km 0) ;;
   assert (float_eq x a0) ;;;
   data <- lift (drop_column dat) ;;
   ver <- lift (DataArray_new data
                  [("alt_km", CoordF alt_km); ("wavelength", CoordL wavelen)]
                  "alt_km" "wavelength" "ver") ;;
   ret (merge iono ver))%io.

Definition glowparse (raw : string) : result Dataset :=
  fst (glowparse_io (readlines raw)).

(** Where the stream stands when [glowparse] returns or raises. *)
Definition glowparse_position (raw : string) : stream :=
  snd (glowparse_io (readlines raw)).

(** ** The checks of glowparse, in order

    [glowparse_checks] lists what decides the outcome of [glowparse] on a
    stream: for each of the three calls, what was collected; [assemble] is
    the dataset built from the fields of the two tables.  It is shown below
    to agree with [glowparse_io] on every stream. *)

(** The call returns an array of dimension 2. *)
Definition is_table (nbcols : nat) (rows : list (list string)) : bool :=
  (2 <=? length rows) && negb (nbcols =? 1).

Definition to_floats (rows : list (list string)) : list (list F) :=
  map (map to_float) rows.

Definition altitudes (rows : list (list string)) : list F :=
  map (fun r => to_float (hd EmptyString r)) rows.

Definition assemble (rows1 rows2 : list (list string)) : Dataset :=
  mkDataset
    [("alt_km", CoordF (altitudes rows1));
     ("wavelength", CoordL (asarray_labels wavelen))]
    (map (fun kv => (fst kv, Var1 "alt_km" (snd kv)))
         (combine glow_var (transpose 13 (map (skipn 1) (to_floats rows1))))
     ++ [("ver", Var2 "alt_km" "wavelength" (map (skipn 1) (to_floats rows2)))])
    [].

Definition anchors_match (rows1 rows2 : list (list string)) : bool :=
  float_eq (to_float (first_field rows2)) (to_float (first_field rows1)).

Definition glowparse_checks (s : stream) : result Dataset * stream :=
  let '(n0, _, _, s1) := collect 1 1 s in
  if negb (n0 =? 10) then (Raise AssertionError, s1) else
  let '(n1, rows1, invalid1, s2) := collect 1 Nalt s1 in
  match invalid1 with
  | _ :: _ => (Raise ValueError, s2)
  | [] =>
  if negb (is_table n1 rows1) then (Raise IndexError, s2) else
  if negb (n1 =? 14) then (Raise ValueError, s2) else
  let '(n2, rows2, invalid2, s3) := collect 1 Nalt s2 in
  match invalid2 with
  | _ :: _ => (Raise ValueError, s3)
  | [] =>
  if negb (is_table n2 rows2) then (Raise IndexError, s3) else
  if negb (anchors_match rows1 rows2) then (Raise AssertionError, s3) else
  if negb ((length rows2 =? length rows1) && (n2 =? 16))
  then (Raise ValueError, s3)
  else (Ok (assemble rows1 rows2), s3)
  end
  end.

(** ** glowread and maxwellian *)

Definition glowread (raw : string) (time : datetime) (ip : DataFrame)
    (glat glon : F) : result Dataset :=
  (iono <-- glowparse raw ;;
   let iono := set_attr iono "geomag_params" (AttrFrame ip) in
   let iono := set_attr iono "time" (AttrStr (isoformat time)) in
   let iono := set_attr iono "glatlon" (AttrPair glat glon) in
   Ok iono)%res.

(** What [maxwellian] reaches outside the program: the index provider, the
    lookup (and build) of the executable, and the run of the executable on
    one input text, which gives its standard output. *)
Record World : Type := mkWorld {
  get_indices : list datetime -> nat -> result DataFrame;
  get_exe : result string;
  check_output : string -> string -> result string
}.

(** The f-string handed to [check_output] as [input]. *)
Definition stdin_line (idate utsec : string) (glat glon : F) (ip : DataFrame)
    (Q Echar : F) : result string :=
  (a <-- iloc ip 1 ;;
   b <-- iloc ip 1 ;;
   c <-- iloc ip 0 ;;
   d <-- iloc ip 1 ;;
   Ok (idate ++ " " ++ utsec ++ " " ++ str_float glat ++ " "
       ++ str_float glon ++ " " ++ str_float (f107s a) ++ " "
       ++ str_float (f107 b) ++ " " ++ str_float (f107 c) ++ " "
       ++ str_float (Ap d) ++ " "
       ++ str_float Q ++ " " ++ str_float Echar)%string)%res.

(** The result comes with the texts written to the standard input of the
    executable, in order. *)
Definition maxwellian (w : World) (time : datetime) (glat glon Q Echar : F)
    : list string * result Dataset :=
  let '(idate, utsec) := glowdate time in
  match
    (before <-- minus_one_day time ;;
     ip <-- get_indices w [before; time] 81 ;;
     exe <-- get_exe w ;;
     line <-- stdin_line idate utsec glat glon ip Q Echar ;;
     Ok (ip, exe, line))%res
  with
  | Raise e => ([], Raise e)
  | Ok (ip, exe, line) =>
      ([line],
       (dat <-- check_output w exe line ;;
        glowread dat time ip glat glon)%res)
  end.

End Glow.

Arguments Arr0 {F} x.
Arguments Arr1 {F} v.
Arguments Arr2 {F} m.
Arguments CoordF {F} v.
Arguments CoordL {F} v.
Arguments Var1 {F} dim v.
Arguments Var2 {F} dim0 dim1 m.
Arguments coords {F} d.
Arguments data_vars {F} d.
Arguments attrs {F} d.
Arguments mkDataset {F} coords data_vars attrs.
Arguments mkIndexRow {F} f107 f107s Ap.
Arguments f107 {F} i.
Arguments f107s {F} i.
Arguments Ap {F} i.
Arguments mkWorld {F} get_indices get_exe check_output.
Arguments get_indices {F} w dates smoothdays.
Arguments profile_at {F} ds name i.
Arguments getitem {F} ds name.
Arguments is_profile {F} v.
Arguments profiles {F} ds.
Arguments tables {F} ds.
Arguments altitudes {F} to_float rows.
Arguments to_floats {F} to_float rows.
Arguments anchors_match {F} to_float float_eq rows1 rows2.
Arguments assemble {F} to_float rows1 rows2.

(** ** Sample inputs *)

(** Doubles for running the parser on sample texts: the hardware type, its
    [==], and a conversion that reads plain decimal literals
    ([digits], [digits.digits], with an optional sign) of at most 15 digits.
    Such a literal is an integer below [2^53] over a power of ten below
    [10^16], and both are doubles, so one correctly rounded division gives
    the double that [float] returns.  Every other text gives nan; the sample
    texts use no other spelling of a number. *)
Module SampleFloat.

Fixpoint split_dot (s : string) : string * option string :=
  match s with
  | EmptyString => (EmptyString, None)
  | String c s' =>
      if Ascii.eqb c "."%char then (EmptyString, Some s')
      else let '(i, f) := split_dot s' in (String c i, f)
  end.

Definition digits_value (s : string) : option Z :=
  match s with
  | EmptyString => None
  | _ => option_map Z.of_uint (NilEmpty.uint_of_string s)
  end.

Definition ratio (m : Z) (k : nat) : float :=
  (of_uint63 (Uint63.of_Z m) / of_uint63 (Uint63.of_Z (10 ^ Z.of_nat k)))%float.

Definition unsigned (s : string) : float :=
  let '(i, f) := split_dot s in
  match f with
  | None =>
      match digits_value i with
      | Some m => if String.length i <=? 15 then ratio m 0 else nan
      | None => nan
      end
  | Some f =>
      match digits_value i, digits_value f, digits_value (i ++ f) with
      | Some _, Some _, Some m =>
          if String.length i + String.length f <=? 15
          then ratio m (String.length f) else nan
      | _, _, _ => nan
      end
  end.

Definition to_float (s : string) : float :=
  match s with
  | String "-"%char s' => (- unsigned s')%float
  | String "+"%char s' => unsigned s'
  | _ => unsigned s
  end.

Definition float_eq (x y : float) : bool := PrimFloat.eqb x y.

End SampleFloat.

Definition unlines (ls : list string) : string :=
  String.concat "" (map (fun l => (l ++ String newline EmptyString)%string) ls).

(** Row [i] of a sample block: the altitude [80 + i], a first data column
    [first + i], and [ncols - 1] more columns reading [v]. *)
Definition sample_row (first : Z) (ncols : nat) (v : string) (i : nat)
    : string :=
  String.concat " "
    (str_int (80 + Z.of_nat i) :: str_int (first + Z.of_nat i)
     :: repeat v (ncols - 1)).

Definition sample_block (first : Z) (ncols : nat) (v : string) (nrows : nat)
    : list string :=
  map (sample_row first ncols v) (seq 0 nrows).

Definition sample_echo : string := " Enter date, UT, lat, lon, F107a, F107, F107p, Ap, Ef, Ec".

Definition sample_header : string :=
  " 2015355     0.0    65.0  -148.0   100.0   100.0   100.0     4.0     1.0  2000.0".

Definition sample_title1 : string :=
  "   Z     Tn       O        N2        NO      Ne(in)    Ne(out)  Ionrate      O+       O2+      NO+       N(2D)    Pederson   Hall".

Definition sample_title2 : string :=
  "   Z      3371    4278    5200    5577    6300    7320   10400    3644    7774    8446    3726    LBH     1356    1493    1304".

Definition sample_rows1 : list string := sample_block 180 13 "1.5" 102.

Definition sample_rows2 : list string := sample_block 0 15 "2.25" 102.

(** A text in the layout of the executable. *)
Definition sample_text : string :=
  unlines (glow_lines sample_echo sample_header sample_title1 sample_rows1
             sample_title2 sample_rows2 []).

(** The same rows without the two title lines. *)
Definition untitled_text : string :=
  unlines (spec_lines sample_echo sample_header sample_rows1 sample_rows2).

(** The synthetic text of the end-to-end scenario: every number is a small
    integer. *)
Definition synthetic_rows1 : list string := sample_block 7 13 "1" 102.

Definition synthetic_rows2 : list string := sample_block 9 15 "2" 102.

Definition synthetic_text : string :=
  unlines (spec_lines "echo" "1 2 3 4 5 6 7 8 9 10"
             synthetic_rows1 synthetic_rows2).

Definition synthetic_titled_text : string :=
  unlines (glow_lines "echo" "1 2 3 4 5 6 7 8 9 10" "Z" synthetic_rows1
             "Z" synthetic_rows2 []).

(** A header row of nine fields. *)
Definition short_header_text : string :=
  unlines (glow_lines sample_echo "2015355 0.0 65.0 -148.0 100.0 100.0 100.0 4.0 1.0"
             sample_title1 sample_rows1 sample_title2 sample_rows2 []).

(** Twelve data columns in the first block, on 102 rows. *)
Definition narrow_text : string :=
  unlines (glow_lines sample_echo sample_header sample_title1
             (sample_block 180 12 "1.5" 102)
             sample_title2 sample_rows2 []).

(** The second block starts at another altitude. *)
Definition shifted_text : string :=
  unlines (glow_lines sample_echo sample_header sample_title1 sample_rows1
             sample_title2
             (map (fun i => sample_row 0 15 "2.25" (S i)) (seq 0 102)) []).

(** The second block stops after 101 rows. *)
Definition truncated_text : string :=
  unlines (glow_lines sample_echo sample_header sample_title1 sample_rows1
             sample_title2 (sample_block 0 15 "2.25" 101) []).

(** The second block with other altitudes from its second row on. *)
Definition sample_rows2' : list string :=
  map (fun i =>
         if i =? 0 then sample_row 0 15 "2.25" 0
         else String.concat " "
                (str_int (500 - Z.of_nat i) :: skipn 1 (split_line (sample_row 0 15 "2.25" i))))
      (seq 0 102).

Definition realtitude_text : string :=
  unlines (glow_lines sample_echo sample_header sample_title1 sample_rows1
             sample_title2 sample_rows2' []).

(** The integers [lo], ..., [lo + n - 1]. *)
Definition Zrange (lo : Z) (n : nat) : list Z :=
  map (fun i => (lo + Z.of_nat i)%Z) (seq 0 n).

Definition sample_time : datetime := mkDatetime 2015 12 21 0 0 0 0.

Definition early_time : datetime := mkDatetime 999 1 1 0 0 0 0.

Definition late_time : datetime := mkDatetime 2016 12 31 23 59 59 999999.

(** A world where every number is integral and is written as [str_int]
    writes it, and where the executable prints the sample text. *)
Definition integral (s : string) : Z :=
  match int_of_str s with
  | Some z => z
  | None => 0%Z
  end.

Definition sample_world : World Z :=
  mkWorld
    (fun _ _ => Ok [mkIndexRow 98%Z 101%Z 3%Z; mkIndexRow 100%Z 102%Z 4%Z])
    (Ok "build/glowbasic")
    (fun _ _ => Ok sample_text).


(** ** More definitions for the parser and the driver *)

(** A line with a field: not blank, not a comment alone. *)
Definition has_field (line : string) : bool := negb (has_fields 0 line).

(** The attributes that [glowread] sets, in order. *)
Definition glow_attrs {F : Type} (time : datetime) (ip : DataFrame F)
    (glat glon : F) : list (string * attr F) :=
  [("geomag_params", AttrFrame F ip);
   ("time", AttrStr F (isoformat time));
   ("glatlon", AttrPair F glat glon)].

(** The sample text under another echo line, header, titles and trailer,
    each row indented and followed by a comment. *)
Definition respaced_text : string :=
  unlines (glow_lines "glow" "0 0 0 0 0 0 0 0 0 0" "profiles"
             (map (fun l => ("   " ++ l ++ "    # row")%string) sample_rows1)
             "emissions"
             (map (fun l => ("   " ++ l ++ "    # row")%string) sample_rows2)
             ["end of output"]).

(** The sample text with a blank line and a comment line after each row but
    the last of each block. *)
Definition spaced_out (rows : list string) : list string :=
  flat_map (fun l => [l; EmptyString; "# comment"]) rows.

Definition blank_lines_text : string :=
  unlines (glow_lines sample_echo sample_header sample_title1
             (spaced_out (firstn 101 sample_rows1) ++ [nth 101 sample_rows1 ""])
             sample_title2
             (spaced_out (firstn 101 sample_rows2) ++ [nth 101 sample_rows2 ""])
             []).

(** The sample text with row 50 of the first block cut to three fields. *)
Definition ragged_text : string :=
  unlines (sample_echo :: sample_header :: sample_title1
           :: firstn 50 sample_rows1 ++ "130 230 1.5"
           :: skipn 51 sample_rows1 ++ sample_title2 :: sample_rows2).

(** The sample text with a blank line between the echo line and the header
    row. *)
Definition blank_second_text : string :=
  unlines (sample_echo :: EmptyString
           :: tl (glow_lines sample_echo sample_header sample_title1
                    sample_rows1 sample_title2 sample_rows2 [])).

(** The sample text followed by two more lines. *)
Definition trailed_text : string :=
  unlines (glow_lines sample_echo sample_header sample_title1 sample_rows1
             sample_title2 sample_rows2 ["more"; "lines"]).

(** Worlds where the executable cannot be had, and where its run times
    out. *)
Definition no_exe_world : World Z :=
  mkWorld (get_indices sample_world) (Raise RuntimeError)
    (fun _ _ => Ok sample_text).

Definition timeout_world : World Z :=
  mkWorld (get_indices sample_world) (Ok "build/glowbasic")
    (fun _ _ => Raise TimeoutExpired).

(** * Finding and building the executable

    [cmake_build.cmake_build] and [get_exe].  The machine (what is on the
    search path, the files, os.name, the environment) is a state [W] that
    only the commands change; the paths are texts. *)
Module Build.

Inductive exn : Type :=
| FileNotFoundError
| CalledProcessError (returncode : Z) (cmd : list string)
| RuntimeError.

Inductive result (A : Type) : Type :=
| Ok (a : A)
| Raise (e : exn).
Arguments Ok {A} a.
Arguments Raise {A} e.

Definition BINDIR : string := "build".

Definition BINPATH : string := "build".

(** [not x] for a value that is [None] or a text. *)
Definition falsy (x : option string) : bool :=
  match x with
  | None => true
  | Some s => String.eqb s EmptyString
  end.

Section Machine.

Variable W : Type.

(** [shutil.which(cmd, path=path)] *)
Variable which : string -> option string -> W -> option string.

(** [Path(p).expanduser().resolve(strict=True)]; [None] when the path does
    not exist. *)
Variable resolve : string -> W -> option string.

(** [str(p / name)] *)
Variable joinpath : string -> string -> string.

(** [os.name] *)
Variable os_name : W -> string.

(** [os.environ.get(key)] *)
Variable environ_get : string -> W -> option string.

(** [subprocess.call(cmd)]: the return code, and the machine afterwards. *)
Variable call : list string -> W -> Z * W.

(** The directory of the module, [Path(__file__).resolve().parent]. *)
Variable module_dir : string.

(** The machine, the commands run so far (oldest first), and the memo table
    of [functools.cache] on [get_exe]. *)
Record state : Type := mkState {
  world : W;
  calls : list (list string);
  cache : list (string * string)
}.

Definition M (A : Type) : Type := state -> result A * state.

Definition ret {A : Type} (a : A) : M A := fun st => (Ok a, st).

Definition raise {A : Type} (e : exn) : M A := fun st => (Raise e, st).

Definition bind {A B : Type} (m : M A) (k : A -> M B) : M B :=
  fun st =>
    match m st with
    | (Ok a, st') => k a st'
    | (Raise e, st') => (Raise e, st')
    end.

(** Reading the machine. *)
Definition ask {A : Type} (f : W -> A) : M A :=
  fun st => (Ok (f (world st)), st).

(** [subprocess.check_call(cmd)] *)
Definition check_call (cmd : list string) : M unit :=
  fun st =>
    let '(returncode, w) := call cmd (world st) in
    let st' := mkState w (calls st ++ [cmd]) (cache st) in
    if (returncode =? 0)%Z then (Ok tt, st')
    else (Raise (CalledProcessError returncode cmd), st').

Definition cmake_build (src_dir : string) : M unit :=
  bind (ask (resolve src_dir)) (fun resolved =>
  match resolved with
  | None => raise FileNotFoundError
  | Some src_dir =>
      bind (ask (which "cmake" None)) (fun cmake_exe =>
      if falsy cmake_exe then raise FileNotFoundError
      else
        let cmake_exe := match cmake_exe with
                         | Some p => p
                         | None => EmptyString
                         end in
        bind (ask os_name) (fun name =>
        bind (ask (environ_get "CMAKE_GENERATOR")) (fun generator =>
        let wopts :=
          if String.eqb name "nt" && falsy generator
          then ["-G"; "MinGW Makefiles"] else [] in
        let bin_dir := joinpath src_dir BINDIR in
        bind (check_call ([cmake_exe; ("-S" ++ src_dir)%string;
                           ("-B" ++ bin_dir)%string] ++ wopts))
             (fun _ =>
        check_call [cmake_exe; "--build"; bin_dir; "--parallel"]))))
  end).

(** The two command lines that [cmake_build] runs on a machine. *)
Definition configure_cmd (cmake_exe src_dir : string) (w : W) : list string :=
  [cmake_exe; ("-S" ++ src_dir)%string;
   ("-B" ++ joinpath src_dir BINDIR)%string]
  ++ (if String.eqb (os_name w) "nt"
         && falsy (environ_get "CMAKE_GENERATOR" w)
      then ["-G"; "MinGW Makefiles"] else []).

Definition build_cmd (cmake_exe src_dir : string) : list string :=
  [cmake_exe; "--build"; joinpath src_dir BINDIR; "--parallel"].

(** The body of [get_exe]. *)
Definition get_exe_uncached (name : string) : M string :=
  let src_dir := module_dir in
  let bin_dir := joinpath src_dir BINPATH in
  bind (ask (which name (Some bin_dir))) (fun exe =>
  bind (if falsy exe then cmake_build src_dir else ret tt) (fun _ =>
  bind (ask (which name (Some bin_dir))) (fun exe =>
  if falsy exe then raise RuntimeError
  else ret match exe with
           | Some p => p
           | None => EmptyString
           end))).

(** [get_exe] under [functools.cache]: a stored result is returned as it is;
    a result is stored when the body returns, not when it raises. *)
Definition get_exe (name : string) : M string :=
  fun st =>
    match assoc name (cache st) with
    | Some p => (Ok p, st)
    | None =>
        match get_exe_uncached name st with
        | (Ok p, st') =>
            (Ok p, mkState (world st') (calls st') ((name, p) :: cache st'))
        | (Raise e, st') => (Raise e, st')
        end
    end.

End Machine.

Arguments mkState {W} world calls cache.
Arguments world {W} s.
Arguments calls {W} s.
Arguments cache {W} s.

(** A small machine for running the two functions: whether cmake is
    installed, the executables in the build directory, the platform, the
    generator of the environment, and whether the sources compile. *)
Record PC : Type := mkPC {
  has_cmake : bool;
  built : list string;
  platform : string;
  generator : option string;
  compiles : bool
}.

Definition pc_which (cmd : string) (path : option string) (w : PC)
    : option string :=
  match path with
  | None =>
      if String.eqb cmd "cmake" && has_cmake w then Some "/usr/bin/cmake"
      else None
  | Some dir =>
      if existsb (String.eqb cmd) (built w)
      then Some (dir ++ "/" ++ cmd)%string else None
  end.

Definition pc_resolve (p : string) (w : PC) : option string := Some p.

Definition pc_joinpath (p name : string) : string := (p ++ "/" ++ name)%string.

Definition pc_environ_get (key : string) (w : PC) : option string :=
  if String.eqb key "CMAKE_GENERATOR" then generator w else None.

(** Configuring succeeds; building succeeds when the sources compile, and
    then leaves glowbasic in the build directory. *)
Definition pc_call (cmd : list string) (w : PC) : Z * PC :=
  match cmd with
  | _ :: "--build" :: _ =>
      if compiles w
      then (0%Z, mkPC (has_cmake w) ("glowbasic" :: built w) (platform w)
                   (generator w) (compiles w))
      else (2%Z, w)
  | _ => (0%Z, w)
  end.

Definition pc_state (w : PC) : state PC := mkState w [] [].

Definition pc_cmake_build : string -> M PC unit :=
  cmake_build PC pc_which pc_resolve pc_joinpath platform pc_environ_get
    pc_call.

Definition pc_get_exe : string -> M PC string :=
  get_exe PC pc_which pc_resolve pc_joinpath platform pc_environ_get pc_call
    "/opt/glow".

Definition fresh_pc : PC := mkPC true [] "posix" None true.

Definition windows_pc : PC := mkPC true [] "nt" None true.

Definition bare_pc : PC := mkPC false [] "posix" None true.

Definition broken_pc : PC := mkPC true [] "posix" None false.

Definition ready_pc : PC := mkPC false ["glowbasic"] "posix" None true.

End Build.

(** * Facts about the reader *)

Lemma parse_lines_width (nbcols max_rows : nat) (s : stream) :
  forall rows invalid rows' invalid' rest,
    parse_lines nbcols max_rows s rows invalid = (rows', invalid', rest) ->
    Forall (fun r => length r = nbcols) rows ->
    Forall (fun r => length r = nbcols) rows'.
Proof.
  induction s as [|line t IH]; simpl; intros rows invalid rows' invalid' rest H Hw.
  - inversion H; subst; assumption.
  - destruct (length (split_line line) =? 0) eqn:E0; [eauto|].
    destruct (length (split_line line) =? nbcols) eqn:En; simpl in H; [|eauto].
    apply Nat.eqb_eq in En.
    assert (Hw' : Forall (fun r => length r = nbcols) (rows ++ [split_line line])).
    { apply Forall_app; split; [assumption|]. constructor; [assumption|constructor]. }
    destruct (length (rows ++ [split_line line]) =? max_rows); [|eauto].
    inversion H; subst; assumption.
Qed.

Lemma parse_lines_count (nbcols max_rows : nat) (s : stream) :
  forall rows invalid rows' invalid' rest,
    parse_lines nbcols max_rows s rows invalid = (rows', invalid', rest) ->
    length rows < max_rows ->
    length rows' <= max_rows /\ (length rows' < max_rows -> rest = []).
Proof.
  induction s as [|line t IH]; simpl; intros rows invalid rows' invalid' rest H Hlt.
  - inversion H; subst; split; [lia|reflexivity].
  - destruct (length (split_line line) =? 0) eqn:E0; [eauto|].
    destruct (length (split_line line) =? nbcols) eqn:En; simpl in H; [|eauto].
    destruct (length (rows ++ [split_line line]) =? max_rows) eqn:Em.
    + apply Nat.eqb_eq in Em. inversion H; subst. split; lia.
    + apply Nat.eqb_neq in Em. apply (IH _ _ _ _ _ H).
      rewrite length_app in *; simpl in *; lia.
Qed.

Lemma collect_width (k max_rows : nat) (s : stream) :
  Forall (fun r => length r = nbcols_of (collect k max_rows s))
         (rows_of (collect k max_rows s)).
Proof.
  unfold collect.
  destruct (match skip_lines k s with Some t => first_valid t | None => None end)
    as [[first_line t]|]; [|constructor].
  destruct (parse_lines _ _ _ _ _) as [[rows invalid] rest] eqn:E.
  simpl. eapply parse_lines_width; [exact E|constructor].
Qed.

Lemma collect_count (k max_rows : nat) (s : stream) :
  0 < max_rows ->
  length (rows_of (collect k max_rows s)) <= max_rows /\
  (length (rows_of (collect k max_rows s)) < max_rows ->
   rest_of (collect k max_rows s) = []).
Proof.
  intros Hm. unfold collect.
  destruct (match skip_lines k s with Some t => first_valid t | None => None end)
    as [[first_line t]|]; [|simpl; split; [lia|reflexivity]].
  destruct (parse_lines _ _ _ _ _) as [[rows invalid] rest] eqn:E.
  simpl. eapply parse_lines_count; [exact E|simpl; lia].
Qed.

Lemma first_valid_fields (s : stream) (line : string) (t : stream) :
  first_valid s = Some (line, t) -> split_line line <> [].
Proof.
  induction s as [|l s IH]; simpl; [discriminate|].
  destruct (split_line l) eqn:E; [assumption|].
  intros H; inversion H; subst. rewrite E. discriminate.
Qed.

(** A call with [max_rows = 1] stores the first valid line and stops: no line
    can be invalid. *)
Lemma collect_one_row (k : nat) (s : stream) :
  (collect k 1 s = (0, [], [], [])) \/
  (exists line rest,
     split_line line <> [] /\
     collect k 1 s = (length (split_line line), [split_line line], [], rest)).
Proof.
  unfold collect.
  destruct (match skip_lines k s with Some t => first_valid t | None => None end)
    as [[first_line t]|] eqn:E; [|left; reflexivity].
  right. exists first_line, t.
  assert (Hf : split_line first_line <> []).
  { destruct (skip_lines k s); [|discriminate].
    eapply first_valid_fields; eassumption. }
  split; [assumption|].
  simpl. destruct (split_line first_line) as [|v vs]; [contradiction|].
  simpl. rewrite Nat.eqb_refl. reflexivity.
Qed.

Section ReaderFacts.

Variable F : Type.
Variable to_float : string -> F.
Variable float_eq : F -> F -> bool.

Lemma genfromtxt_collect (k max_rows : nat) (s : stream) :
  genfromtxt F to_float k max_rows s =
  (match invalid_of (collect k max_rows s) with
   | _ :: _ => Raise ValueError
   | [] => Ok (squeeze F (nbcols_of (collect k max_rows s))
                 (to_floats to_float (rows_of (collect k max_rows s))))
   end, rest_of (collect k max_rows s)).
Proof.
  unfold genfromtxt.
  destruct (collect k max_rows s) as [[[n rows] invalid] rest].
  destruct invalid; reflexivity.
Qed.

Lemma size_one_row (r : list string) :
  r <> [] -> size F (squeeze F (length r) (to_floats to_float [r])) = length r.
Proof.
  destruct r as [|x [|y r]]; [contradiction|reflexivity|].
  intros _. simpl. rewrite length_map. reflexivity.
Qed.

Lemma squeeze_table (n : nat) (rows : list (list string)) :
  is_table n rows = true ->
  squeeze F n (to_floats to_float rows) = Arr2 (to_floats to_float rows).
Proof.
  unfold is_table. intros H. apply andb_prop in H. destruct H as [H2 H1].
  destruct rows as [|r [|r' rows]]; simpl in H2; try discriminate.
  simpl. apply negb_true_iff in H1. rewrite H1. reflexivity.
Qed.

Lemma squeeze_not_table (n : nat) (rows : list (list string)) :
  is_table n rows = false ->
  Forall (fun r => length r = n) rows ->
  (exists x, squeeze F n (to_floats to_float rows) = Arr0 x) \/
  (exists v, squeeze F n (to_floats to_float rows) = Arr1 v).
Proof.
  unfold is_table. intros H Hw.
  destruct rows as [|r [|r' rows]].
  - right. eexists. reflexivity.
  - destruct r as [|x [|y r]]; simpl; eauto.
  - simpl in H. apply negb_false_iff in H. simpl. rewrite H. eauto.
Qed.

Lemma column0_altitudes (n : nat) (rows : list (list string)) :
  n <> 0 ->
  Forall (fun r => length r = n) rows ->
  column F 0 (to_floats to_float rows) = Ok (altitudes to_float rows).
Proof.
  intros Hn Hw. induction Hw as [|r rows Hr Hw IH]; [reflexivity|].
  simpl. rewrite IH. destruct r as [|x r]; [simpl in Hr; congruence|reflexivity].
Qed.

Lemma zip_cons_shape (k : nat) (r : list F) (cols : list (list F)) :
  length r = length cols ->
  Forall (fun c => length c = k) cols ->
  length (zip_cons F r cols) = length cols /\
  Forall (fun c => length c = S k) (zip_cons F r cols).
Proof.
  revert cols. induction r as [|x r IH]; intros [|c cols] Hl Hc;
    simpl in *; try discriminate; [split; [reflexivity|constructor]|].
  inversion Hc as [|c' cols' Hk Hcols]; subst.
  destruct (IH cols) as [H1 H2]; [lia|assumption|].
  split; [lia|]. constructor; [reflexivity|assumption].
Qed.

Lemma transpose_shape (ncols : nat) (m : list (list F)) :
  Forall (fun r => length r = ncols) m ->
  length (transpose F ncols m) = ncols /\
  Forall (fun c => length c = length m) (transpose F ncols m).
Proof.
  induction 1 as [|r m Hr Hm IH]; simpl.
  - split; [apply repeat_length|].
    apply Forall_forall. intros c Hc. apply repeat_spec in Hc. subst. reflexivity.
  - destruct IH as [H1 H2].
    destruct (zip_cons_shape (length m) r (transpose F ncols m)) as [H3 H4];
      [congruence|assumption|].
    split; [congruence|assumption].
Qed.

Lemma drop_column_width (n : nat) (rows : list (list string)) :
  Forall (fun r => length r = S n) rows ->
  Forall (fun r => length r = n) (map (skipn 1) (to_floats to_float rows)).
Proof.
  induction 1 as [|r rows Hr Hw IH]; simpl; constructor; [|assumption].
  destruct r; simpl in *; [discriminate|]. rewrite length_map. lia.
Qed.

End ReaderFacts.

Lemma collect_nbcols_pos (k max_rows : nat) (s : stream) :
  rows_of (collect k max_rows s) <> [] -> nbcols_of (collect k max_rows s) <> 0.
Proof.
  unfold collect.
  destruct (skip_lines k s) as [t|]; [|simpl; congruence].
  destruct (first_valid t) as [[first_line t']|] eqn:E; [|simpl; congruence].
  apply first_valid_fields in E.
  destruct (parse_lines _ _ _ _ _) as [[rows invalid] rest].
  simpl. intros _. destruct (split_line first_line); [congruence|discriminate].
Qed.

Lemma is_table_rows (n : nat) (rows : list (list string)) :
  is_table n rows = true -> rows <> [].
Proof.
  destruct rows; [discriminate|congruence].
Qed.

Section Checks.

Variable F : Type.
Variable to_float : string -> F.
Variable float_eq : F -> F -> bool.

Lemma shape1_table (n : nat) (rows : list (list string)) :
  rows <> [] ->
  Forall (fun r => length r = n) rows ->
  shape1 F (Arr2 (to_floats to_float rows)) = Ok (Z.of_nat n).
Proof.
  intros Hne Hw. destruct rows as [|r rows]; [contradiction|].
  inversion Hw; subst. simpl. rewrite length_map. reflexivity.
Qed.

Lemma profiles_fit (alt : list F) (names : list string) (cols : list (list F)) :
  Forall (fun c => length c = length alt) cols ->
  forallb (fun kv => var_fits F [("alt_km", CoordF alt)] (snd kv))
          (map (fun kv => (fst kv, Var1 "alt_km" (snd kv))) (combine names cols))
  = true.
Proof.
  intros Hc. apply forallb_forall. intros [k v] Hin.
  apply in_map_iff in Hin. destruct Hin as [[k' c] [Heq Hin]].
  inversion Heq; subst. apply in_combine_r in Hin.
  rewrite Forall_forall in Hc. simpl. unfold axis_fits. simpl.
  apply Nat.eqb_eq. auto.
Qed.

Lemma get_item2_first (n : nat) (rows : list (list string)) :
  rows <> [] -> n <> 0 ->
  Forall (fun r => length r = n) rows ->
  get_item2 F (Arr2 (to_floats to_float rows)) 0 0
  = Ok (to_float (first_field rows)).
Proof.
  intros Hne Hn Hw. destruct rows as [|r rows]; [contradiction|].
  inversion Hw; subst. destruct r; [simpl in Hn; congruence|reflexivity].
Qed.

Lemma get_item1_first (rows : list (list string)) :
  rows <> [] ->
  get_item1 F (altitudes to_float rows) 0 = Ok (to_float (first_field rows)).
Proof.
  destruct rows; [contradiction|reflexivity].
Qed.

Lemma ver_fits (n : nat) (alt : list F) (rows : list (list string)) :
  rows <> [] -> n <> 0 ->
  Forall (fun r => length r = n) rows ->
  var_fits F [("alt_km", CoordF alt);
              ("wavelength", CoordL (asarray_labels wavelen))]
           (Var2 "alt_km" "wavelength" (map (skipn 1) (to_floats to_float rows)))
  = (length rows =? length alt) && (n =? 16).
Proof.
  intros Hne Hn Hw. simpl. unfold axis_fits. simpl.
  unfold to_floats. rewrite !length_map. f_equal.
  destruct n as [|n]; [congruence|].
  pose proof (drop_column_width F to_float n rows Hw) as Hd.
  unfold to_floats in Hd.
  destruct (Nat.eqb_spec (S n) 16) as [E|E].
  - apply forallb_forall. intros r Hr. rewrite Forall_forall in Hd.
    rewrite (Hd r Hr). apply Nat.eqb_eq. lia.
  - destruct rows as [|r rows]; [contradiction|].
    simpl in Hd. inversion Hd as [|x l Hx Hl].
    simpl. apply andb_false_iff. left. apply Nat.eqb_neq. lia.
Qed.

Lemma width_check (n : nat) :
  negb (Z.of_nat (length glow_var) =? Z.of_nat n - 1)%Z = negb (n =? 14).
Proof.
  f_equal. simpl length.
  destruct (Nat.eqb_spec n 14); [apply Z.eqb_eq|apply Z.eqb_neq]; lia.
Qed.

Theorem glowparse_io_checks (s : stream) :
  glowparse_io F to_float float_eq s = glowparse_checks F to_float float_eq s.
Proof.
  unfold glowparse_io, glowparse_checks.
  unfold bind at 1. rewrite genfromtxt_collect.
  destruct (collect_one_row 1 s) as [H0 | (line & s1 & Hne & H0)]; rewrite H0;
    cbn [invalid_of nbcols_of rows_of rest_of].
  - reflexivity.
  - unfold bind at 1. rewrite (size_one_row F to_float _ Hne).
    destruct (length (split_line line) =? 10) eqn:E10; cbn [negb assert ret raise];
      [|reflexivity].
    unfold bind at 1. rewrite genfromtxt_collect.
    pose proof (collect_width 1 Nalt s1) as W1.
    pose proof (collect_nbcols_pos 1 Nalt s1) as P1.
    destruct (collect 1 Nalt s1) as [[[n1 rows1] inv1] s2].
    cbn [invalid_of nbcols_of rows_of rest_of] in *.
    destruct inv1; [|reflexivity].
    destruct (is_table n1 rows1) eqn:T1; cbn [negb].
    2: { destruct (squeeze_not_table F to_float _ _ T1 W1) as [[x ->] | [v ->]];
         reflexivity. }
    rewrite (squeeze_table F to_float _ _ T1).
    pose proof (is_table_rows _ _ T1) as R1. specialize (P1 R1).
    unfold bind at 1. unfold lift at 1. cbn [get_column].
    rewrite (column0_altitudes F to_float n1 rows1 P1 W1).
    unfold bind at 1. unfold lift at 1.
    rewrite (shape1_table n1 rows1 R1 W1).
    unfold bind at 1. rewrite width_check.
    destruct (n1 =? 14) eqn:E14; cbn [negb ret raise]; [|reflexivity].
    apply Nat.eqb_eq in E14. subst n1.
    unfold bind at 1. unfold lift at 1. cbn [drop_column].
    change (Z.to_nat (Z.of_nat 14 - 1)) with 13.
    pose proof (drop_column_width F to_float 13 rows1 W1) as D1.
    destruct (transpose_shape F 13 _ D1) as [TL TW].
    unfold bind at 1. unfold lift at 1. unfold Dataset_new.
    cbn [as_coordinates as_coordinate map fst snd].
    rewrite profiles_fit.
    2: { unfold altitudes. rewrite length_map.
         unfold to_floats in TW. rewrite !length_map in TW. exact TW. }
    unfold bind at 1. cbn [data_vars].
    rewrite length_map, length_combine, TL.
    cbn [length glow_var Nat.min Nat.eqb assert ret].
    unfold bind at 1. rewrite genfromtxt_collect.
    pose proof (collect_width 1 Nalt s2) as W2.
    pose proof (collect_nbcols_pos 1 Nalt s2) as P2.
    destruct (collect 1 Nalt s2) as [[[n2 rows2] inv2] s3].
    cbn [invalid_of nbcols_of rows_of rest_of] in *.
    destruct inv2; [|reflexivity].
    destruct (is_table n2 rows2) eqn:T2; cbn [negb].
    2: { destruct (squeeze_not_table F to_float _ _ T2 W2) as [[x ->] | [v ->]];
         reflexivity. }
    rewrite (squeeze_table F to_float _ _ T2).
    pose proof (is_table_rows _ _ T2) as R2. specialize (P2 R2).
    unfold bind at 1. unfold lift at 1.
    rewrite (get_item2_first n2 rows2 R2 P2 W2).
    unfold bind at 1. unfold lift at 1.
    rewrite (get_item1_first rows1 R1).
    unfold bind at 1. fold (anchors_match to_float float_eq rows1 rows2).
    destruct (anchors_match to_float float_eq rows1 rows2);
      cbn [negb assert ret raise]; [|reflexivity].
    unfold bind at 1. unfold lift at 1. cbn [drop_column].
    unfold bind at 1. unfold lift at 1. unfold DataArray_new.
    cbn [as_coordinates as_coordinate map fst snd].
    rewrite (ver_fits n2 _ rows2 R2 P2 W2).
    unfold altitudes at 1. rewrite length_map.
    destruct ((length rows2 =? length rows1) && (n2 =? 16)); reflexivity.
Qed.
End Checks.

(** * The layout of the executable *)

Lemma parse_lines_block (n max_rows : nat) (lines rest : list string) :
  forall rows invalid,
    n <> 0 ->
    forallb (has_fields n) lines = true ->
    lines <> [] ->
    length rows + length lines = max_rows ->
    parse_lines n max_rows (lines ++ rest) rows invalid
    = (rows ++ map split_line lines, invalid, rest).
Proof.
  induction lines as [|line lines IH]; intros rows invalid Hn Hf Hne Hlen;
    [contradiction|].
  simpl in Hf. apply andb_prop in Hf. destruct Hf as [Hl Hf].
  unfold has_fields in Hl. apply Nat.eqb_eq in Hl.
  simpl. rewrite Hl.
  destruct (Nat.eqb_spec n 0) as [|_]; [contradiction|].
  rewrite Nat.eqb_refl. simpl.
  rewrite length_app. simpl in *.
  destruct lines as [|line' lines].
  - simpl in *. replace (length rows + 1 =? max_rows) with true
      by (symmetry; apply Nat.eqb_eq; lia).
    reflexivity.
  - replace (length rows + 1 =? max_rows) with false
      by (symmetry; apply Nat.eqb_neq; simpl in Hlen; lia).
    rewrite IH; [|assumption|assumption|discriminate|
                  rewrite length_app; simpl in *; lia].
    rewrite <- app_assoc. reflexivity.
Qed.

(** A call that skips one line and meets [max_rows] lines of [n] fields
    collects exactly those and leaves what follows. *)
Lemma collect_block (n max_rows : nat) (title : string)
    (lines rest : list string) :
  n <> 0 ->
  forallb (has_fields n) lines = true ->
  max_rows <> 0 ->
  length lines = max_rows ->
  collect 1 max_rows (title :: lines ++ rest)
  = (n, map split_line lines, [], rest).
Proof.
  intros Hn Hf Hm Hlen.
  destruct lines as [|line lines]; [simpl in Hlen; congruence|].
  assert (Hl : length (split_line line) = n).
  { simpl in Hf. apply andb_prop in Hf. destruct Hf as [Hl _].
    apply Nat.eqb_eq in Hl. exact Hl. }
  assert (Hv : first_valid (line :: lines ++ rest) = Some (line, lines ++ rest)).
  { simpl. destruct (split_line line); [simpl in Hl; congruence|reflexivity]. }
  unfold collect. cbn [skip_lines app]. rewrite Hv, Hl.
  change (line :: lines ++ rest) with ((line :: lines) ++ rest).
  rewrite (parse_lines_block n max_rows (line :: lines) rest [] []);
    [reflexivity|assumption|assumption|discriminate|exact Hlen].
Qed.

(** The header row is the second line of the text, unless that line is
    blank. *)
Lemma header_read_second_line (raw l1 l2 : string) (rest : list string) :
  readlines raw = l1 :: l2 :: rest ->
  split_line l2 <> [] ->
  header_read raw = (length (split_line l2), [split_line l2], [], rest).
Proof.
  intros Hraw Hne. unfold header_read. rewrite Hraw.
  change (l2 :: rest) with ([l2] ++ rest).
  apply (collect_block (length (split_line l2)) 1 l1 [l2] rest).
  - destruct (split_line l2); [contradiction|discriminate].
  - simpl. unfold has_fields. rewrite Nat.eqb_refl. reflexivity.
  - discriminate.
  - reflexivity.
Qed.

(** A blank second line is not the header row: the read goes on to the next
    line that has a field. *)
Lemma header_read_blank_line (raw l1 l2 : string) (rest : list string) :
  readlines raw = l1 :: l2 :: rest ->
  split_line l2 = [] ->
  header_read raw = collect 1 1 (l2 :: rest).
Proof.
  intros Hraw Hb. unfold header_read. rewrite Hraw.
  unfold collect. cbn [skip_lines first_valid]. rewrite Hb. reflexivity.
Qed.

Lemma block_ok_rows (ncols : nat) (rows : list string) :
  block_ok ncols rows = true ->
  length rows = 102 /\ forallb (has_fields (S ncols)) rows = true.
Proof.
  unfold block_ok. intros H. apply andb_prop in H. destruct H as [H1 H2].
  apply Nat.eqb_eq in H1. split; assumption.
Qed.

Lemma map_fst_combine {A B : Type} (l : list A) (l' : list B) :
  length l <= length l' -> map fst (combine l l') = l.
Proof.
  revert l'. induction l as [|a l IH]; intros [|b l'] H; simpl in *;
    [reflexivity|reflexivity|lia|].
  f_equal. apply IH. lia.
Qed.

Lemma to_floats_drop {F : Type} (to_float : string -> F)
    (rows : list (list string)) :
  map (skipn 1) (to_floats to_float rows)
  = to_floats to_float (map (skipn 1) rows).
Proof.
  unfold to_floats. rewrite !map_map. apply map_ext.
  intros [|x r]; reflexivity.
Qed.

Lemma has_fields_width (n : nat) (lines : list string) :
  forallb (has_fields n) lines = true ->
  Forall (fun r => length r = n) (map split_line lines).
Proof.
  intros H. apply Forall_forall. intros r Hr.
  apply in_map_iff in Hr. destruct Hr as [l [<- Hl]].
  rewrite forallb_forall in H. apply Nat.eqb_eq. exact (H l Hl).
Qed.

Section Layout.

Variable F : Type.
Variable to_float : string -> F.
Variable float_eq : F -> F -> bool.

(** On the layout of the executable the three calls read the header row and
    the two blocks, and only the altitude anchor is left to decide. *)
Lemma glowparse_io_layout (echo hdr title1 : string) (rows1 : list string)
    (title2 : string) (rows2 post : list string) :
  has_fields 10 hdr = true ->
  block_ok 13 rows1 = true ->
  block_ok 15 rows2 = true ->
  glowparse_io F to_float float_eq
    (glow_lines echo hdr title1 rows1 title2 rows2 post)
  = if anchors_match to_float float_eq
         (map split_line rows1) (map split_line rows2)
    then (Ok (assemble to_float (map split_line rows1) (map split_line rows2)),
          post)
    else (Raise AssertionError, post).
Proof.
  intros Hh H1 H2.
  apply block_ok_rows in H1. destruct H1 as [L1 W1].
  apply block_ok_rows in H2. destruct H2 as [L2 W2].
  rewrite glowparse_io_checks. unfold glowparse_checks, glow_lines.
  change (hdr :: title1 :: rows1 ++ title2 :: rows2 ++ post)
    with ([hdr] ++ (title1 :: rows1 ++ title2 :: rows2 ++ post)).
  rewrite (collect_block 10 1 echo [hdr]);
    [|discriminate|simpl; rewrite Hh; reflexivity|discriminate|reflexivity].
  cbn [Nat.eqb negb].
  rewrite (collect_block 14 Nalt title1 rows1);
    [|discriminate|assumption|discriminate|exact L1].
  unfold is_table. rewrite length_map, L1. cbn [Nat.leb Nat.eqb negb andb].
  rewrite (collect_block 16 Nalt title2 rows2);
    [|discriminate|assumption|discriminate|exact L2].
  rewrite !length_map, L2. cbn [Nat.leb Nat.eqb negb andb].
  destruct (anchors_match _ _ _ _); reflexivity.
Qed.

End Layout.

(** * What glowparse returns and when it raises *)

Section ParserProperties.

Variable F : Type.
Variable to_float : string -> F.
Variable float_eq : F -> F -> bool.

Lemma profiles_assemble (rows1 rows2 : list (list string)) :
  Forall (fun r => length r = 14) rows1 ->
  map fst (profiles (assemble to_float rows1 rows2)) = glow_var /\
  tables (assemble to_float rows1 rows2)
  = [("ver", Var2 "alt_km" "wavelength"
               (map (skipn 1) (to_floats to_float rows2)))].
Proof.
  intros W1.
  pose proof (drop_column_width F to_float 13 rows1 W1) as D1.
  destruct (transpose_shape F 13 _ D1) as [TL _].
  unfold profiles, tables, assemble. cbn [data_vars].
  rewrite !filter_app. cbn [filter snd is_profile negb].
  set (vars := map _ (combine glow_var _)).
  assert (Hall : forall kv, In kv vars -> is_profile (snd kv) = true).
  { intros kv Hin. apply in_map_iff in Hin. destruct Hin as [x [<- _]].
    reflexivity. }
  assert (Hp : filter (fun kv => is_profile (snd kv)) vars = vars).
  { clear -Hall. induction vars as [|kv vars IH]; [reflexivity|].
    simpl. rewrite (Hall kv (or_introl eq_refl)).
    f_equal. apply IH. intros kv' Hin. apply Hall. right. exact Hin. }
  assert (Hn : filter (fun kv => negb (is_profile (snd kv))) vars = []).
  { clear -Hall. induction vars as [|kv vars IH]; [reflexivity|].
    simpl. rewrite (Hall kv (or_introl eq_refl)). simpl.
    apply IH. intros kv' Hin. apply Hall. right. exact Hin. }
  rewrite Hp, Hn, app_nil_r. split; [|reflexivity].
  subst vars. rewrite map_map. cbn [fst].
  change (map (fun x : string * list F => fst x)) with (@map _ _ (@fst string (list F))).
  apply map_fst_combine. rewrite TL. simpl. lia.
Qed.

(** C1 (amended).  For every text in the layout of the executable (an echo
    line, a header row of 10 fields, then two blocks, each a line that is
    skipped followed by 102 rows, of an altitude and 13 data columns in the
    first block and of an altitude and 15 data columns in the second, the
    two blocks starting at the same altitude), [glowparse] returns a dataset
    whose altitude coordinate has 102 values, whose profiles are the 13
    named quantities, and whose one array of dimension 2 has 102 rows of
    width 15 over the 15 wavelength labels, which the dataset holds as
    texts.  The stream is left at the first line after the second block:
    the lines that follow are not read. *)
Theorem glowparse_glow_layout (raw echo hdr title1 : string)
    (rows1 : list string) (title2 : string) (rows2 post : list string) :
  readlines raw = glow_lines echo hdr title1 rows1 title2 rows2 post ->
  has_fields 10 hdr = true ->
  block_ok 13 rows1 = true ->
  block_ok 15 rows2 = true ->
  anchors_match to_float float_eq
    (map split_line rows1) (map split_line rows2) = true ->
  exists ds alt ver,
    glowparse F to_float float_eq raw = Ok ds /\
    assoc "alt_km" (coords ds) = Some (CoordF alt) /\
    length alt = 102 /\
    map fst (profiles ds) = glow_var /\
    length (profiles ds) = 13 /\
    tables ds = [("ver", Var2 "alt_km" "wavelength" ver)] /\
    length ver = 102 /\
    Forall (fun r => length r = 15) ver /\
    assoc "wavelength" (coords ds)
    = Some (CoordL (map LStr
                    ["3371"; "4278"; "5200"; "5577"; "6300"; "7320"; "10400";
                     "3644"; "7774"; "8446"; "3726"; "LBH"; "1356"; "1493";
                     "1304"])) /\
    glowparse_position F to_float float_eq raw = post.
Proof.
  intros Hraw Hh H1 H2 Ha.
  pose proof (block_ok_rows _ _ H1) as [L1 W1].
  pose proof (block_ok_rows _ _ H2) as [L2 W2].
  apply has_fields_width in W1. apply has_fields_width in W2.
  destruct (profiles_assemble (map split_line rows1) (map split_line rows2) W1)
    as [Hp Ht].
  exists (assemble to_float (map split_line rows1) (map split_line rows2)),
         (altitudes to_float (map split_line rows1)),
         (map (skipn 1) (to_floats to_float (map split_line rows2))).
  split.
  { unfold glowparse. rewrite Hraw, glowparse_io_layout by assumption. rewrite Ha. reflexivity. }
  split; [reflexivity|].
  split; [unfold altitudes; rewrite !length_map; exact L1|].
  split; [exact Hp|].
  split; [rewrite <- (length_map fst), Hp; reflexivity|].
  split; [exact Ht|].
  split; [unfold to_floats; rewrite !length_map; exact L2|].
  split; [exact (drop_column_width F to_float 15 _ W2)|].
  split; [reflexivity|].
  unfold glowparse_position. rewrite Hraw, glowparse_io_layout by assumption.
  rewrite Ha. reflexivity.
Qed.

(** C2 (amended).  For the synthetic text with one line before each block
    (an echo line, a header row of 10 fields, a line that is skipped, 102
    rows of 14 columns, a line that is skipped, 102 rows of 16 columns, the
    same first altitude), [glowparse] succeeds, and the quantity "Tn" at the
    first altitude index is the value of the field at row 0, column 1 of the
    first block. *)
Theorem glowparse_first_quantity (raw echo hdr title1 row0 : string)
    (rows1 : list string) (title2 : string) (rows2 post : list string)
    (alt v : string) (others : list string) :
  readlines raw = glow_lines echo hdr title1 (row0 :: rows1) title2 rows2 post ->
  has_fields 10 hdr = true ->
  block_ok 13 (row0 :: rows1) = true ->
  block_ok 15 rows2 = true ->
  anchors_match to_float float_eq
    (map split_line (row0 :: rows1)) (map split_line rows2) = true ->
  split_line row0 = alt :: v :: others ->
  exists ds,
    glowparse F to_float float_eq raw = Ok ds /\
    profile_at ds "Tn" 0 = Some (to_float v).
Proof.
  intros Hraw Hh H1 H2 Ha Hrow.
  pose proof (block_ok_rows _ _ H1) as [L1 W1].
  apply has_fields_width in W1.
  eexists. split.
  { unfold glowparse. rewrite Hraw, glowparse_io_layout by assumption.
    rewrite Ha. reflexivity. }
  inversion W1 as [|r rs Hr Hrs]; subst.
  pose proof (drop_column_width F to_float 13 _ Hrs) as D1.
  destruct (transpose_shape F 13 _ D1) as [TL _].
  unfold profile_at, getitem, assemble. cbn [data_vars map].
  rewrite Hrow. cbn [to_floats map skipn transpose].
  fold (to_floats to_float (map split_line rows1)).
  destruct (transpose F 13 _) as [|c cols]; [discriminate|].
  reflexivity.
Qed.

(** C9.  Two texts in the layout of the executable that differ only in the
    altitude field of rows 1 to 101 of the second block give the same
    dataset, and its altitude coordinate is column 0 of the first block. *)
Theorem glowparse_ignores_second_altitudes (raw raw' echo hdr title1 : string)
    (rows1 : list string) (title2 row0 : string)
    (others others' post : list string) :
  readlines raw
  = glow_lines echo hdr title1 rows1 title2 (row0 :: others) post ->
  readlines raw'
  = glow_lines echo hdr title1 rows1 title2 (row0 :: others') post ->
  has_fields 10 hdr = true ->
  block_ok 13 rows1 = true ->
  block_ok 15 (row0 :: others) = true ->
  block_ok 15 (row0 :: others') = true ->
  map (fun l => skipn 1 (split_line l)) others
  = map (fun l => skipn 1 (split_line l)) others' ->
  anchors_match to_float float_eq
    (map split_line rows1) (map split_line (row0 :: others)) = true ->
  exists ds,
    glowparse F to_float float_eq raw = Ok ds /\
    glowparse F to_float float_eq raw' = Ok ds /\
    assoc "alt_km" (coords ds)
    = Some (CoordF (altitudes to_float (map split_line rows1))).
Proof.
  intros Hraw Hraw' Hh H1 H2 H2' Hsame Ha.
  exists (assemble to_float (map split_line rows1)
            (map split_line (row0 :: others))).
  split; [|split; [|reflexivity]].
  - unfold glowparse. rewrite Hraw, glowparse_io_layout by assumption.
    rewrite Ha. reflexivity.
  - unfold glowparse. rewrite Hraw', glowparse_io_layout by assumption.
    change (anchors_match to_float float_eq (map split_line rows1)
              (map split_line (row0 :: others')))
      with (anchors_match to_float float_eq (map split_line rows1)
              (map split_line (row0 :: others))).
    rewrite Ha. cbn [fst]. f_equal.
    unfold assemble. rewrite !to_floats_drop. cbn [map].
    rewrite !map_map. rewrite Hsame. reflexivity.
Qed.

(** C3 (amended).  For every text whose header row does not have exactly
    10 fields, [glowparse] raises the assertion error of the header, and the
    stream then stands where the read of the header row left it: no line of
    a data block has been read.  The header row is the first line after the
    first one that has a field: the second line, unless that line is blank
    or holds a comment only ([header_read_second_line],
    [header_read_blank_line]); a text with no such line has a header of no
    field. *)
Theorem glowparse_header_check (raw : string) :
  nbcols_of (header_read raw) <> 10 ->
  glowparse F to_float float_eq raw = Raise AssertionError /\
  glowparse_position F to_float float_eq raw = rest_of (header_read raw).
Proof.
  intros Hn. unfold glowparse, glowparse_position.
  rewrite glowparse_io_checks. unfold glowparse_checks.
  unfold header_read in *.
  destruct (collect 1 1 (readlines raw)) as [[[n0 rows0] inv0] s1].
  cbn [nbcols_of rest_of] in *. apply Nat.eqb_neq in Hn. rewrite Hn.
  split; reflexivity.
Qed.

(** C4.  For every text whose first data block does not have exactly 13
    data columns beside the altitude column, [glowparse] raises, whatever
    the number of rows. *)
Theorem glowparse_column_check (raw : string) :
  (Z.of_nat (nbcols_of (block1_read raw)) - 1 <> 13)%Z ->
  raises (glowparse F to_float float_eq raw).
Proof.
  intros Hn. unfold glowparse.
  rewrite glowparse_io_checks. unfold glowparse_checks.
  unfold block1_read, header_read in Hn.
  destruct (collect 1 1 (readlines raw)) as [[[n0 rows0] inv0] s1].
  cbn [rest_of] in Hn.
  destruct (n0 =? 10); cbn [negb]; [|exact I].
  fold Nalt in Hn.
  destruct (collect 1 Nalt s1) as [[[n1 rows1] inv1] s2].
  cbn [nbcols_of] in Hn.
  destruct inv1; [|exact I].
  destruct (is_table n1 rows1); cbn [negb]; [|exact I].
  destruct (Nat.eqb_spec n1 14) as [E|E]; [lia|exact I].
Qed.

(** C5.  For every text in which the first altitude of the second data
    block differs from the first altitude of the first data block,
    [glowparse] raises. *)
Theorem glowparse_anchor_check (raw : string) (a1 a2 : string)
    (r1 r2 : list string) (rs1 rs2 : list (list string)) :
  rows_of (block1_read raw) = (a1 :: r1) :: rs1 ->
  rows_of (block2_read raw) = (a2 :: r2) :: rs2 ->
  float_eq (to_float a2) (to_float a1) = false ->
  raises (glowparse F to_float float_eq raw).
Proof.
  intros Hb1 Hb2 Hd. unfold glowparse.
  rewrite glowparse_io_checks. unfold glowparse_checks.
  unfold block2_read, block1_read, header_read in *.
  destruct (collect 1 1 (readlines raw)) as [[[n0 rows0] inv0] s1].
  cbn [rest_of] in *.
  destruct (n0 =? 10); cbn [negb]; [|exact I].
  fold Nalt in Hb1, Hb2.
  destruct (collect 1 Nalt s1) as [[[n1 rows1] inv1] s2].
  cbn [rows_of rest_of] in *.
  destruct inv1; [|exact I].
  destruct (is_table n1 rows1); cbn [negb]; [|exact I].
  destruct (n1 =? 14); cbn [negb]; [|exact I].
  destruct (collect 1 Nalt s2) as [[[n2 rows2] inv2] s3].
  cbn [rows_of] in *.
  destruct inv2; [|exact I].
  destruct (is_table n2 rows2); cbn [negb]; [|exact I].
  subst rows1 rows2. unfold anchors_match, first_field. cbn [hd].
  rewrite Hd. exact I.
Qed.

(** C6.  For every text in which the first or the second data block has
    fewer than 102 rows, [glowparse] raises: it returns no dataset built
    from the rows that were there. *)
Theorem glowparse_row_count (raw : string) :
  length (rows_of (block1_read raw)) < 102 \/
  length (rows_of (block2_read raw)) < 102 ->
  raises (glowparse F to_float float_eq raw).
Proof.
  intros Hrows. unfold glowparse.
  rewrite glowparse_io_checks. unfold glowparse_checks.
  unfold block2_read, block1_read, header_read in *.
  destruct (collect 1 1 (readlines raw)) as [[[n0 rows0] inv0] s1].
  cbn [rest_of] in *.
  destruct (n0 =? 10); cbn [negb]; [|exact I].
  fold Nalt in Hrows.
  pose proof (collect_count 1 Nalt s1) as C1.
  destruct (collect 1 Nalt s1) as [[[n1 rows1] inv1] s2].
  cbn [rows_of rest_of] in *.
  destruct inv1; [|exact I].
  destruct (is_table n1 rows1); cbn [negb]; [|exact I].
  destruct (n1 =? 14); cbn [negb]; [|exact I].
  destruct C1 as [C1le C1rest]; [unfold Nalt; lia|].
  destruct (Nat.lt_ge_cases (length rows1) Nalt) as [Hlt|Hge].
  - rewrite (C1rest Hlt). exact I.
  - assert (L1 : length rows1 = 102) by (unfold Nalt in *; lia).
    destruct Hrows as [Hr|Hr]; [lia|].
    destruct (collect 1 Nalt s2) as [[[n2 rows2] inv2] s3].
    cbn [rows_of] in *.
    destruct inv2; [|exact I].
    destruct (is_table n2 rows2); cbn [negb]; [|exact I].
    destruct (anchors_match to_float float_eq rows1 rows2); cbn [negb];
      [|exact I].
    rewrite L1.
    destruct (Nat.eqb_spec (length rows2) 102) as [E|E]; [lia|exact I].
Qed.

End ParserProperties.

(** ** The theorems on sample texts *)

Lemma glowparse_glow_layout_sample :
  exists ds,
    glowparse float SampleFloat.to_float SampleFloat.float_eq sample_text
    = Ok ds /\
    length (profiles ds) = 13.
Proof.
  destruct (glowparse_glow_layout float SampleFloat.to_float
              SampleFloat.float_eq sample_text sample_echo sample_header
              sample_title1 sample_rows1 sample_title2 sample_rows2 [])
    as (ds & alt & ver & Hds & _ & _ & _ & Hn & _);
    try (vm_compute; reflexivity).
  exists ds. split; assumption.
Defined.

(** C1, as worded.  A text of an echo line, a header row of 10 fields, 102
    rows of 14 fields and 102 rows of 16 fields, with the same first
    altitude in both blocks: the read of the first block skips its first row,
    stores the 101 rows that follow, then meets the rows of 16 fields, and
    [glowparse] raises. *)
Lemma glowparse_untitled_raises :
  readlines untitled_text
  = spec_lines sample_echo sample_header sample_rows1 sample_rows2 /\
  has_fields 10 sample_header = true /\
  block_ok 13 sample_rows1 = true /\
  block_ok 15 sample_rows2 = true /\
  anchors_match SampleFloat.to_float SampleFloat.float_eq
    (map split_line sample_rows1) (map split_line sample_rows2) = true /\
  length (rows_of (block1_read untitled_text)) = 101 /\
  invalid_of (block1_read untitled_text) = repeat 16 102 /\
  glowparse float SampleFloat.to_float SampleFloat.float_eq untitled_text
  = Raise ValueError.
Proof.
  repeat split; vm_compute; reflexivity.
Qed.

Lemma glowparse_first_quantity_synthetic :
  exists ds,
    glowparse float SampleFloat.to_float SampleFloat.float_eq
      synthetic_titled_text = Ok ds /\
    profile_at ds "Tn" 0 = Some (SampleFloat.to_float "7").
Proof.
  apply (glowparse_first_quantity float SampleFloat.to_float
           SampleFloat.float_eq synthetic_titled_text "echo"
           "1 2 3 4 5 6 7 8 9 10" "Z" (hd "" synthetic_rows1)
           (tl synthetic_rows1) "Z" synthetic_rows2 []
           "80" "7" (repeat "1" 12));
    vm_compute; reflexivity.
Defined.

(** C2, as worded.  The synthetic text of exactly one echo line, one header
    line of 10 fields, 102 rows of 14 columns and 102 rows of 16 columns
    with the same first altitude: [glowparse] raises, and there is no
    dataset to select from. *)
Lemma glowparse_synthetic_raises :
  readlines synthetic_text
  = spec_lines "echo" "1 2 3 4 5 6 7 8 9 10" synthetic_rows1 synthetic_rows2 /\
  length (readlines synthetic_text) = 206 /\
  block_ok 13 synthetic_rows1 = true /\
  block_ok 15 synthetic_rows2 = true /\
  anchors_match SampleFloat.to_float SampleFloat.float_eq
    (map split_line synthetic_rows1) (map split_line synthetic_rows2) = true /\
  glowparse float SampleFloat.to_float SampleFloat.float_eq synthetic_text
  = Raise ValueError.
Proof.
  repeat split; vm_compute; reflexivity.
Qed.

Lemma glowparse_header_check_sample :
  nbcols_of (header_read short_header_text) = 9 /\
  glowparse float SampleFloat.to_float SampleFloat.float_eq short_header_text
  = Raise AssertionError /\
  glowparse_position float SampleFloat.to_float SampleFloat.float_eq
    short_header_text
  = rest_of (header_read short_header_text).
Proof.
  split; [vm_compute; reflexivity|].
  apply (glowparse_header_check float SampleFloat.to_float
           SampleFloat.float_eq short_header_text).
  vm_compute. discriminate.
Defined.

(** C3, as worded.  The second line of this text is blank: it has no field,
    not 10.  The read of the header goes on to the third line, a row of 10
    fields, and [glowparse] returns the dataset of the sample text. *)
Lemma glowparse_blank_second_line :
  nth_error (readlines blank_second_text) 1 = Some EmptyString /\
  has_fields 10 EmptyString = false /\
  nbcols_of (header_read blank_second_text) = 10 /\
  glowparse float SampleFloat.to_float SampleFloat.float_eq blank_second_text
  = Ok (assemble SampleFloat.to_float (map split_line sample_rows1)
          (map split_line sample_rows2)).
Proof.
  repeat split; vm_compute; reflexivity.
Qed.

Lemma glowparse_column_check_sample :
  length (rows_of (block1_read narrow_text)) = 102 /\
  raises (glowparse float SampleFloat.to_float SampleFloat.float_eq
            narrow_text).
Proof.
  split; [vm_compute; reflexivity|].
  apply (glowparse_column_check float SampleFloat.to_float
           SampleFloat.float_eq narrow_text).
  vm_compute. discriminate.
Defined.

Lemma glowparse_anchor_check_sample :
  raises (glowparse float SampleFloat.to_float SampleFloat.float_eq
            shifted_text).
Proof.
  apply (glowparse_anchor_check float SampleFloat.to_float
           SampleFloat.float_eq shifted_text
           "80" "81"
           (tl (hd [] (rows_of (block1_read shifted_text))))
           (tl (hd [] (rows_of (block2_read shifted_text))))
           (tl (rows_of (block1_read shifted_text)))
           (tl (rows_of (block2_read shifted_text))));
    vm_compute; reflexivity.
Defined.

Lemma glowparse_row_count_sample :
  raises (glowparse float SampleFloat.to_float SampleFloat.float_eq
            truncated_text).
Proof.
  apply (glowparse_row_count float SampleFloat.to_float
           SampleFloat.float_eq truncated_text).
  right. vm_compute. lia.
Defined.

Lemma glowparse_ignores_second_altitudes_sample :
  sample_text <> realtitude_text /\
  exists ds,
    glowparse float SampleFloat.to_float SampleFloat.float_eq sample_text
    = Ok ds /\
    glowparse float SampleFloat.to_float SampleFloat.float_eq realtitude_text
    = Ok ds /\
    assoc "alt_km" (coords ds)
    = Some (CoordF (altitudes SampleFloat.to_float
                      (map split_line sample_rows1))).
Proof.
  split; [vm_compute; discriminate|].
  apply (glowparse_ignores_second_altitudes float SampleFloat.to_float
           SampleFloat.float_eq sample_text realtitude_text sample_echo
           sample_header sample_title1 sample_rows1 sample_title2
           (hd "" sample_rows2) (tl sample_rows2) (tl sample_rows2') []);
    vm_compute; reflexivity.
Defined.

(** * The date fields *)

Lemma Zrange_In (lo z : Z) (n : nat) :
  (lo <= z < lo + Z.of_nat n)%Z -> In z (Zrange lo n).
Proof.
  intros H. unfold Zrange. apply in_map_iff.
  exists (Z.to_nat (z - lo)). split; [lia|].
  apply in_seq. lia.
Qed.

Lemma year_four_digits (y : Z) :
  (1000 <= y <= 9999)%Z -> String.length (str_int y) = 4.
Proof.
  intros H.
  assert (Hall : forallb (fun y => String.length (str_int y) =? 4)
                         (Zrange 1000 (Z.to_nat 9000)) = true)
    by (vm_compute; reflexivity).
  rewrite forallb_forall in Hall. apply Nat.eqb_eq. apply Hall.
  apply Zrange_In. lia.
Qed.

Lemma yday_three_digits (d : Z) :
  (1 <= d <= 366)%Z -> String.length (zero_pad 3 (str_int d)) = 3.
Proof.
  intros H.
  assert (Hall : forallb (fun d => String.length (zero_pad 3 (str_int d)) =? 3)
                         (Zrange 1 366) = true)
    by (vm_compute; reflexivity).
  rewrite forallb_forall in Hall. apply Nat.eqb_eq. apply Hall.
  apply Zrange_In. lia.
Qed.

Lemma zero_pad_full (w : nat) (s : string) :
  w <= String.length s -> zero_pad w s = s.
Proof.
  intros H. unfold zero_pad.
  replace (w - String.length s) with 0 by lia. reflexivity.
Qed.

Ltac split_valid H :=
  unfold valid_datetime in H;
  repeat (let V := fresh "V" in
          apply andb_prop in H; destruct H as [H V]; apply Z.leb_le in V);
  apply Z.leb_le in H.

Lemma month_days (y m : Z) :
  (1 <= m <= 12)%Z ->
  (0 <= days_before_month y m)%Z /\
  (days_before_month y m + days_in_month y m <= 366)%Z.
Proof.
  intros H.
  assert (Hm : (m = 1 \/ m = 2 \/ m = 3 \/ m = 4 \/ m = 5 \/ m = 6 \/
                m = 7 \/ m = 8 \/ m = 9 \/ m = 10 \/ m = 11 \/ m = 12)%Z)
    by lia.
  unfold days_before_month, days_in_month.
  repeat (destruct Hm as [Hm|Hm]);
    subst m; destruct (is_leap y); vm_compute; split; discriminate.
Qed.

Lemma yday_bounds (t : datetime) :
  valid_datetime t = true -> (1 <= yday t <= 366)%Z.
Proof.
  intros H. split_valid H.
  destruct (month_days (year t) (month t)) as [H0 H1]; [lia|].
  unfold yday. lia.
Qed.

Lemma seconds_bounds (t : datetime) :
  valid_datetime t = true ->
  (0 <= hour t * 3600 + minute t * 60 + second t <= 86399)%Z.
Proof.
  intros H. split_valid H. lia.
Qed.

Lemma int_of_str_int (z : Z) : int_of_str (str_int z) = Some z.
Proof.
  unfold int_of_str, str_int. rewrite NilZero.isi.
  - simpl. rewrite DecimalZ.of_to. reflexivity.
  - intros E. destruct z; simpl in E; try discriminate.
    inversion E as [E']. exact (Unsigned.to_uint_nonnil _ E').
  - intros E. destruct z; simpl in E; try discriminate.
    inversion E as [E']. exact (Unsigned.to_uint_nonnil _ E').
Qed.

Lemma year_short (y : Z) :
  (1 <= y < 1000)%Z -> String.length (str_int y) < 4.
Proof.
  intros H.
  assert (Hall : forallb (fun y => String.length (str_int y) <? 4)
                         (Zrange 1 999) = true)
    by (vm_compute; reflexivity).
  rewrite forallb_forall in Hall. apply Nat.ltb_lt. apply Hall.
  apply Zrange_In. lia.
Qed.

(** C7 (amended).  For every timestamp, [glowdate] returns (a) the year in
    decimal, without padding, followed by the day of the year on three
    digits, zero padded, and (b) the text of the whole seconds since
    midnight.  The year takes four digits, and the date field is the one of
    the specification, when the year is at least 1000; it takes fewer for the
    years 1 to 999.  At midnight of day 1 the fields are the year followed
    by 001, and 0; at 23:59:59 the seconds field is 86399. *)
Theorem glowdate_fields (t : datetime) :
  valid_datetime t = true ->
  fst (glowdate t)
  = (str_int (year t) ++ zero_pad 3 (str_int (yday t)))%string /\
  int_of_str (str_int (year t)) = Some (year t) /\
  String.length (zero_pad 3 (str_int (yday t))) = 3 /\
  ((1000 <= year t)%Z ->
   String.length (str_int (year t)) = 4 /\ fst (glowdate t) = spec_idate t) /\
  ((year t < 1000)%Z -> String.length (str_int (year t)) < 4) /\
  snd (glowdate t)
  = str_int (hour t * 3600 + minute t * 60 + second t)%Z /\
  (month t = 1%Z -> day t = 1%Z ->
   hour t = 0%Z -> minute t = 0%Z -> second t = 0%Z ->
   glowdate t = ((str_int (year t) ++ "001")%string, "0")) /\
  (hour t = 23%Z -> minute t = 59%Z -> second t = 59%Z ->
   snd (glowdate t) = "86399").
Proof.
  intros Hv.
  pose proof (yday_bounds t Hv) as Hd.
  assert (Hy : (1 <= year t <= 9999)%Z) by (split_valid Hv; lia).
  split; [reflexivity|].
  split; [apply int_of_str_int|].
  split; [apply yday_three_digits; exact Hd|].
  split.
  { intros H1000.
    assert (Hy4 : String.length (str_int (year t)) = 4)
      by (apply year_four_digits; lia).
    split; [exact Hy4|].
    unfold spec_idate, glowdate, strftime_j. cbn [fst].
    rewrite (zero_pad_full 4 (str_int (year t))) by lia. reflexivity. }
  split; [intros Hlt; apply year_short; lia|].
  split; [reflexivity|].
  split.
  - intros Hm Hday Hh Hmin Hs.
    unfold glowdate, strftime_j, yday, days_before_month.
    rewrite Hm, Hday, Hh, Hmin, Hs. reflexivity.
  - intros Hh Hmin Hs. unfold glowdate. cbn [snd].
    rewrite Hh, Hmin, Hs. reflexivity.
Qed.

Lemma glowdate_fields_sample :
  fst (glowdate sample_time) = "2015355" /\
  fst (glowdate early_time) = "999001" /\
  glowdate (mkDatetime 2015 1 1 0 0 0 0) = ("2015001", "0") /\
  glowdate (mkDatetime 999 1 1 0 0 0 0) = ("999001", "0") /\
  snd (glowdate late_time) = "86399".
Proof.
  destruct (glowdate_fields sample_time) as (H1 & _);
    [vm_compute; reflexivity|].
  destruct (glowdate_fields early_time) as (H1' & _);
    [vm_compute; reflexivity|].
  destruct (glowdate_fields (mkDatetime 2015 1 1 0 0 0 0))
    as (_ & _ & _ & _ & _ & _ & H2 & _); [vm_compute; reflexivity|].
  destruct (glowdate_fields (mkDatetime 999 1 1 0 0 0 0))
    as (_ & _ & _ & _ & _ & _ & H2' & _); [vm_compute; reflexivity|].
  destruct (glowdate_fields late_time) as (_ & _ & _ & _ & _ & _ & _ & H3);
    [vm_compute; reflexivity|].
  split; [rewrite H1; vm_compute; reflexivity|].
  split; [rewrite H1'; vm_compute; reflexivity|].
  split; [rewrite H2 by reflexivity; reflexivity|].
  split; [rewrite H2' by reflexivity; reflexivity|].
  apply H3; reflexivity.
Defined.

(** C7, as worded.  On the first day of the year 999, a timestamp that
    [datetime] accepts, the date field is 999001: the year is written on
    three digits, where the specification has 0999001. *)
Lemma glowdate_early_year :
  valid_datetime early_time = true /\
  glowdate early_time = ("999001", "0") /\
  spec_idate early_time = "0999001" /\
  fst (glowdate early_time) <> spec_idate early_time.
Proof.
  repeat split; try (vm_compute; reflexivity).
  vm_compute. discriminate.
Qed.

(** C10.  The seconds field of [glowdate] does not depend on the
    microseconds of the timestamp (in particular it is the same once they
    are set to zero), and it reads as an integer from 0 to 86399. *)
Theorem glowdate_seconds (t : datetime) :
  valid_datetime t = true ->
  (forall us, glowdate (replace_microsecond t us) = glowdate t) /\
  exists n,
    int_of_str (snd (glowdate t)) = Some n /\ (0 <= n <= 86399)%Z.
Proof.
  intros Hv. split; [reflexivity|].
  exists (hour t * 3600 + minute t * 60 + second t)%Z.
  split; [apply int_of_str_int|apply seconds_bounds; exact Hv].
Qed.

Lemma glowdate_seconds_sample :
  glowdate (replace_microsecond late_time 0) = glowdate late_time /\
  int_of_str (snd (glowdate late_time)) = Some 86399%Z.
Proof.
  destruct (glowdate_seconds late_time) as [Hus _];
    [vm_compute; reflexivity|].
  split; [apply Hus|vm_compute; reflexivity].
Defined.

(** * The line piped to the executable *)

Lemma append_empty_r (s : string) : (s ++ "")%string = s.
Proof.
  induction s as [|c s IH]; [reflexivity|]. simpl. rewrite IH. reflexivity.
Qed.

Lemma append_assoc (a b c : string) :
  ((a ++ b) ++ c)%string = (a ++ b ++ c)%string.
Proof.
  induction a as [|x a IH]; [reflexivity|]. simpl. rewrite IH. reflexivity.
Qed.

Lemma no_space_append (a b : string) :
  no_space (a ++ b) = no_space a && no_space b.
Proof.
  induction a as [|c a IH]; [reflexivity|].
  simpl. rewrite IH. apply andb_assoc.
Qed.

Lemma is_field_append (a b : string) :
  is_field a = true -> no_space b = true -> is_field (a ++ b) = true.
Proof.
  unfold is_field. intros Ha Hb. apply andb_prop in Ha. destruct Ha as [Ha Hs].
  rewrite no_space_append, Hs, Hb.
  destruct a; [discriminate|reflexivity].
Qed.

Lemma split_ws_from_word (f : string) :
  forall cur rest,
    no_space f = true ->
    split_ws_from cur (f ++ rest) = split_ws_from (cur ++ f) rest.
Proof.
  induction f as [|c f IH]; intros cur rest Hf.
  - rewrite append_empty_r. reflexivity.
  - simpl in Hf. apply andb_prop in Hf. destruct Hf as [Hc Hf].
    apply negb_true_iff in Hc. simpl. rewrite Hc.
    rewrite (IH _ _ Hf), append_assoc. reflexivity.
Qed.

(** Words that are fields, joined by single spaces, split back into
    themselves. *)
Lemma split_ws_join (fields : list string) :
  forallb is_field fields = true ->
  split_ws (String.concat " " fields) = fields.
Proof.
  unfold split_ws.
  induction fields as [|f fields IH]; intros H; [reflexivity|].
  simpl in H. apply andb_prop in H. destruct H as [Hf H].
  unfold is_field in Hf. apply andb_prop in Hf. destruct Hf as [Hne Hs].
  destruct fields as [|g fields].
  - simpl. rewrite <- (append_empty_r f) at 1.
    rewrite (split_ws_from_word f "" "" Hs). simpl.
    destruct f; [discriminate|reflexivity].
  - change (String.concat " " (f :: g :: fields))
      with (f ++ String " " (String.concat " " (g :: fields)))%string.
    rewrite (split_ws_from_word f "" _ Hs).
    cbn [append split_ws_from]. change (is_space " ") with true. cbn iota.
    rewrite (IH H). destruct f; [discriminate|reflexivity].
Qed.

Lemma no_space_digits (d : Decimal.uint) :
  no_space (NilEmpty.string_of_uint d) = true.
Proof.
  induction d; simpl; assumption || reflexivity.
Qed.

Lemma is_field_str_int (z : Z) : is_field (str_int z) = true.
Proof.
  assert (Hu : forall d, is_field (NilZero.string_of_uint d) = true).
  { intros d. unfold is_field. destruct d; simpl;
      try reflexivity; apply no_space_digits. }
  unfold str_int. destruct (Z.to_int z) as [d|d]; simpl; [apply Hu|].
  specialize (Hu d). unfold is_field in *. apply andb_prop in Hu.
  destruct Hu as [_ Hu]. simpl. exact Hu.
Qed.

Lemma no_space_zeros (k : nat) :
  no_space (String.concat "" (repeat "0" k)) = true.
Proof.
  induction k as [|k IH]; [reflexivity|].
  simpl. destruct (repeat "0" k); [reflexivity|exact IH].
Qed.

Lemma is_field_zero_pad (w : nat) (s : string) :
  is_field s = true -> is_field (zero_pad w s) = true.
Proof.
  unfold zero_pad, is_field. intros Hs.
  apply andb_prop in Hs. destruct Hs as [Hne Hs].
  rewrite no_space_append, no_space_zeros, Hs, andb_true_r.
  destruct (String.concat "" (repeat "0" (w - String.length s)));
    [exact Hne|reflexivity].
Qed.

Lemma is_field_glowdate (t : datetime) :
  is_field (fst (glowdate t)) = true /\ is_field (snd (glowdate t)) = true.
Proof.
  split; [|apply is_field_str_int].
  unfold glowdate, strftime_j. cbn [fst].
  apply is_field_append; [apply is_field_str_int|].
  pose proof (is_field_zero_pad 3 _ (is_field_str_int (yday t))) as H.
  unfold is_field in H. apply andb_prop in H. apply H.
Qed.

Section Maxwellian.

Variable F : Type.
Variable to_float : string -> F.
Variable float_eq : F -> F -> bool.
Variable str_float : F -> string.

(** C8.  Every call of [maxwellian] that gets as far as the run of the
    executable (the day before exists, the indices are found and have two
    rows, the executable is found) writes exactly one line to its standard
    input, the input of that run, and the line has exactly 10 fields
    separated by single spaces, in this order: the date, the seconds since
    midnight, the latitude, the longitude, the 81-day average F10.7, the
    F10.7 of the day, the F10.7 of the day before, the Ap of the day, the
    energy flux and the characteristic energy.  No call writes anything
    else. *)
Theorem maxwellian_stdin_fields (w : World F) (time : datetime)
    (glat glon Q Echar : F) :
  (forall x, is_field (str_float x) = true) ->
  (forall before ip exe yesterday today,
     minus_one_day time = Ok before ->
     get_indices w [before; time] 81 = Ok ip ->
     get_exe F w = Ok exe ->
     nth_error ip 0 = Some yesterday ->
     nth_error ip 1 = Some today ->
     exists line,
       maxwellian F to_float float_eq str_float w time glat glon Q Echar
       = ([line],
          rbind (check_output F w exe line)
            (fun dat => glowread F to_float float_eq dat time ip glat glon))
       /\
       split_ws line
       = [fst (glowdate time); snd (glowdate time);
          str_float glat; str_float glon;
          str_float (f107s today); str_float (f107 today);
          str_float (f107 yesterday); str_float (Ap today);
          str_float Q; str_float Echar]) /\
  (forall line,
     In line (fst (maxwellian F to_float float_eq str_float w time
                     glat glon Q Echar)) ->
     exists before ip exe yesterday today,
       minus_one_day time = Ok before /\
       get_indices w [before; time] 81 = Ok ip /\
       get_exe F w = Ok exe /\
       nth_error ip 0 = Some yesterday /\
       nth_error ip 1 = Some today /\
       fst (maxwellian F to_float float_eq str_float w time
              glat glon Q Echar) = [line] /\
       split_ws line
       = [fst (glowdate time); snd (glowdate time);
          str_float glat; str_float glon;
          str_float (f107s today); str_float (f107 today);
          str_float (f107 yesterday); str_float (Ap today);
          str_float Q; str_float Echar]).
Proof.
  intros Hfmt.
  destruct (is_field_glowdate time) as [Hd Hs].
  assert (Hsplit : forall yesterday today : IndexRow F,
    split_ws (fst (glowdate time) ++ " " ++ snd (glowdate time) ++ " "
              ++ str_float glat ++ " " ++ str_float glon ++ " "
              ++ str_float (f107s today) ++ " " ++ str_float (f107 today)
              ++ " " ++ str_float (f107 yesterday) ++ " "
              ++ str_float (Ap today) ++ " " ++ str_float Q ++ " "
              ++ str_float Echar)%string
    = [fst (glowdate time); snd (glowdate time);
       str_float glat; str_float glon;
       str_float (f107s today); str_float (f107 today);
       str_float (f107 yesterday); str_float (Ap today);
       str_float Q; str_float Echar]).
  { intros yesterday today.
    apply (split_ws_join
             [fst (glowdate time); snd (glowdate time);
              str_float glat; str_float glon;
              str_float (f107s today); str_float (f107 today);
              str_float (f107 yesterday); str_float (Ap today);
              str_float Q; str_float Echar]).
    cbn [forallb]. rewrite Hd, Hs, !Hfmt. reflexivity. }
  split.
  - intros before ip exe yesterday today Hb Hi He H0 H1.
    eexists. split; [|apply (Hsplit yesterday today)].
    unfold maxwellian, stdin_line, iloc.
    destruct (glowdate time) as [idate utsec]. cbn [fst snd].
    rewrite Hb. cbn [rbind]. rewrite Hi. cbn [rbind].
    rewrite He. cbn [rbind]. rewrite H1, H0. cbn [rbind]. reflexivity.
  - intros line Hin. unfold maxwellian in *.
    destruct (glowdate time) as [idate utsec] eqn:Eg. cbn [fst snd] in *.
    destruct (minus_one_day time) as [before|e] eqn:Eb; [|contradiction].
    cbn [rbind] in *.
    destruct (get_indices w [before; time] 81) as [ip|e] eqn:Ei;
      [|contradiction].
    cbn [rbind] in *.
    destruct (get_exe F w) as [exe|e] eqn:Ee; [|contradiction].
    cbn [rbind] in *.
    unfold stdin_line, iloc in *.
    destruct (nth_error ip 1) as [today|] eqn:E1; [|contradiction].
    cbn [rbind] in *.
    destruct (nth_error ip 0) as [yesterday|] eqn:E0; [|contradiction].
    cbn [rbind fst] in *.
    destruct Hin as [Hl|[]]. subst line.
    exists before, ip, exe, yesterday, today.
    do 6 (split; [first [assumption | reflexivity]|]).
    apply (Hsplit yesterday today).
Qed.

End Maxwellian.

Lemma maxwellian_stdin_fields_sample :
  exists line,
    fst (maxwellian Z integral Z.eqb str_int sample_world sample_time
           65%Z (-148)%Z 1%Z 2000%Z) = [line] /\
    line = "2015355 0 65 -148 102 100 98 4 1 2000" /\
    split_ws line
    = ["2015355"; "0"; "65"; "-148"; "102"; "100"; "98"; "4"; "1"; "2000"].
Proof.
  destruct (maxwellian_stdin_fields Z integral Z.eqb str_int sample_world
              sample_time 65%Z (-148)%Z 1%Z 2000%Z is_field_str_int)
    as [Hwrite _].
  destruct (Hwrite (mkDatetime 2015 12 20 0 0 0 0)
              [mkIndexRow 98%Z 101%Z 3%Z; mkIndexRow 100%Z 102%Z 4%Z]
              "build/glowbasic"
              (mkIndexRow 98%Z 101%Z 3%Z) (mkIndexRow 100%Z 102%Z 4%Z)
              eq_refl eq_refl eq_refl eq_refl eq_refl)
    as (line & Hm & Hf).
  exists line.
  assert (Hl : line = "2015355 0 65 -148 102 100 98 4 1 2000").
  { apply (f_equal fst) in Hm. cbn [fst] in Hm. vm_compute in Hm.
    inversion Hm. reflexivity. }
  split; [rewrite Hm; reflexivity|].
  split; [exact Hl|].
  rewrite Hf. vm_compute. reflexivity.
Defined.

(** * Building and finding the executable *)

Section BuildFacts.

Variable W : Type.
Variable which : string -> option string -> W -> option string.
Variable resolve : string -> W -> option string.
Variable joinpath : string -> string -> string.
Variable os_name : W -> string.
Variable environ_get : string -> W -> option string.
Variable call : list string -> W -> Z * W.
Variable module_dir : string.

Local Notation "'configure_cmd'" :=
  (Build.configure_cmd W joinpath os_name environ_get) (only parsing).
Local Notation "'build_cmd'" := (Build.build_cmd joinpath) (only parsing).

(** Without cmake on the search path [cmake_build] raises
    [FileNotFoundError] and runs no command. *)
Theorem cmake_build_without_cmake (src_dir : string) (st : Build.state W) :
  Build.falsy (which "cmake" None (Build.world st)) = true ->
  Build.cmake_build W which resolve joinpath os_name environ_get call
    src_dir st
  = (Build.Raise Build.FileNotFoundError, st).
Proof.
  intros Hc. unfold Build.cmake_build, Build.bind, Build.ask, Build.raise.
  destruct (resolve src_dir (Build.world st)); [|reflexivity].
  rewrite Hc. reflexivity.
Qed.

(** When the configure command returns a non-zero code, [cmake_build]
    raises [CalledProcessError] with that code, and the build command is not
    run. *)
Theorem cmake_build_configure_fails (src_dir dir exe : string)
    (st : Build.state W) (rc : Z) (w1 : W) :
  resolve src_dir (Build.world st) = Some dir ->
  which "cmake" None (Build.world st) = Some exe ->
  exe <> EmptyString ->
  call (configure_cmd exe dir (Build.world st)) (Build.world st) = (rc, w1) ->
  rc <> 0%Z ->
  Build.cmake_build W which resolve joinpath os_name environ_get call
    src_dir st
  = (Build.Raise
       (Build.CalledProcessError rc (configure_cmd exe dir (Build.world st))),
     Build.mkState w1
       (Build.calls st ++ [configure_cmd exe dir (Build.world st)])
       (Build.cache st)).
Proof.
  intros Hr Hw He Hc Hrc.
  unfold Build.cmake_build, Build.bind, Build.ask, Build.raise.
  rewrite Hr, Hw. cbn [Build.falsy].
  apply String.eqb_neq in He. rewrite He.
  unfold Build.check_call. cbn [Build.world].
  fold (Build.configure_cmd W joinpath os_name environ_get exe dir (Build.world st)). rewrite Hc.
  apply Z.eqb_neq in Hrc. rewrite Hrc. reflexivity.
Qed.

(** [cmake_build] returns only after it ran exactly two commands, the
    configure command and then the build command, and both returned 0; the
    configure command names the MinGW generator exactly on nt with no
    CMAKE_GENERATOR in the environment. *)
Theorem cmake_build_ok (src_dir : string) (st st' : Build.state W) :
  Build.cmake_build W which resolve joinpath os_name environ_get call
    src_dir st = (Build.Ok tt, st') ->
  exists dir exe w1,
    resolve src_dir (Build.world st) = Some dir /\
    which "cmake" None (Build.world st) = Some exe /\
    exe <> EmptyString /\
    call (configure_cmd exe dir (Build.world st)) (Build.world st) = (0%Z, w1) /\
    call (build_cmd exe dir) w1 = (0%Z, Build.world st') /\
    Build.calls st'
    = Build.calls st
      ++ [configure_cmd exe dir (Build.world st); build_cmd exe dir] /\
    Build.cache st' = Build.cache st.
Proof.
  unfold Build.cmake_build, Build.bind, Build.ask, Build.raise.
  destruct (resolve src_dir (Build.world st)) as [dir|] eqn:Hr;
    [|discriminate].
  destruct (which "cmake" None (Build.world st)) as [exe|] eqn:Hw;
    cbn [Build.falsy]; [|discriminate].
  destruct (String.eqb exe EmptyString) eqn:He; [discriminate|].
  unfold Build.check_call. cbn [Build.world Build.calls Build.cache].
  fold (Build.configure_cmd W joinpath os_name environ_get exe dir (Build.world st)). fold (Build.build_cmd joinpath exe dir).
  destruct (call (configure_cmd exe dir (Build.world st)) (Build.world st))
    as [rc1 w1] eqn:H1.
  destruct (Z.eqb_spec rc1 0) as [E1|_]; [subst rc1|discriminate].
  cbn [Build.world Build.calls Build.cache].
  destruct (call (build_cmd exe dir) w1) as [rc2 w2] eqn:H2.
  destruct (Z.eqb_spec rc2 0) as [E2|_]; [subst rc2|discriminate].
  intros H. inversion H; subst st'. cbn [Build.world Build.calls Build.cache].
  exists dir, exe, w1.
  apply String.eqb_neq in He. rewrite <- app_assoc.
  repeat split; try reflexivity; assumption.
Qed.

(** [cmake_build] never touches the memo table and only adds to the list
    of commands. *)
Lemma cmake_build_cache (src_dir : string) (st st' : Build.state W)
    (r : Build.result unit) :
  Build.cmake_build W which resolve joinpath os_name environ_get call
    src_dir st = (r, st') ->
  Build.cache st' = Build.cache st.
Proof.
  unfold Build.cmake_build, Build.bind, Build.ask, Build.raise.
  destruct (resolve src_dir (Build.world st)) as [dir|];
    [|intros H; inversion H; reflexivity].
  destruct (Build.falsy _); [intros H; inversion H; reflexivity|].
  unfold Build.check_call. cbn [Build.world Build.calls Build.cache].
  destruct (call _ (Build.world st)) as [rc1 w1].
  destruct (rc1 =? 0)%Z; [|intros H; inversion H; reflexivity].
  cbn [Build.world Build.calls Build.cache].
  destruct (call _ w1) as [rc2 w2].
  destruct (rc2 =? 0)%Z; intros H; inversion H; reflexivity.
Qed.

(** An executable that is already in the build directory is returned, and
    remembered, without running any command. *)
Theorem get_exe_found (name p : string) (st : Build.state W) :
  assoc name (Build.cache st) = None ->
  which name (Some (joinpath module_dir Build.BINPATH)) (Build.world st)
  = Some p ->
  p <> EmptyString ->
  Build.get_exe W which resolve joinpath os_name environ_get call module_dir
    name st
  = (Build.Ok p,
     Build.mkState (Build.world st) (Build.calls st)
       ((name, p) :: Build.cache st)).
Proof.
  intros Hc Hw Hp. unfold Build.get_exe. rewrite Hc.
  unfold Build.get_exe_uncached, Build.bind, Build.ask, Build.ret.
  rewrite Hw. cbn [Build.falsy]. apply String.eqb_neq in Hp. rewrite Hp.
  cbn [Build.world]. rewrite Hw. cbn [Build.falsy]. rewrite Hp. reflexivity.
Qed.

Lemma get_exe_ok_cached (name p : string) (st st' : Build.state W) :
  Build.get_exe W which resolve joinpath os_name environ_get call module_dir
    name st = (Build.Ok p, st') ->
  assoc name (Build.cache st') = Some p.
Proof.
  unfold Build.get_exe.
  destruct (assoc name (Build.cache st)) as [q|] eqn:Hc.
  - intros H. inversion H; subst. exact Hc.
  - destruct (Build.get_exe_uncached _ _ _ _ _ _ _ _ _ _) as [[q|e] st1];
      intros H; inversion H; subst.
    cbn [Build.cache assoc]. rewrite String.eqb_refl. reflexivity.
Qed.

(** Once [get_exe] has returned a path for a name, every later call for
    that name returns the same path and leaves everything as it is, whatever
    happened to the machine in between: it does not look at the machine. *)
Theorem get_exe_memo (name p : string) (st st' : Build.state W)
    (w : W) (cs : list (list string)) :
  Build.get_exe W which resolve joinpath os_name environ_get call module_dir
    name st = (Build.Ok p, st') ->
  Build.get_exe W which resolve joinpath os_name environ_get call module_dir
    name (Build.mkState w cs (Build.cache st'))
  = (Build.Ok p, Build.mkState w cs (Build.cache st')).
Proof.
  intros H. apply get_exe_ok_cached in H.
  unfold Build.get_exe. cbn [Build.cache]. rewrite H. reflexivity.
Qed.

(** A call of [get_exe] that raises stores nothing: the next call tries
    again. *)
Theorem get_exe_failure_not_stored (name : string) (e : Build.exn)
    (st st' : Build.state W) :
  Build.get_exe W which resolve joinpath os_name environ_get call module_dir
    name st = (Build.Raise e, st') ->
  Build.cache st' = Build.cache st /\ assoc name (Build.cache st') = None.
Proof.
  unfold Build.get_exe.
  destruct (assoc name (Build.cache st)) as [q|] eqn:Hc; [discriminate|].
  unfold Build.get_exe_uncached, Build.bind, Build.ask, Build.ret, Build.raise.
  destruct (Build.falsy (which name _ (Build.world st))).
  - destruct (Build.cmake_build _ _ _ _ _ _ _ _ _) as [[[]|e'] st1] eqn:Hb;
      apply cmake_build_cache in Hb.
    + destruct (Build.falsy _); intros H; inversion H; subst.
      rewrite Hb. split; [reflexivity|exact Hc].
    + intros H; inversion H; subst. rewrite Hb. split; [reflexivity|exact Hc].
  - destruct (Build.falsy _); intros H; inversion H; subst.
    split; [reflexivity|exact Hc].
Qed.

(** A path that [get_exe] returns for the first time is what [which] finds
    in the build directory on the machine as the call leaves it. *)
Theorem get_exe_result_present (name p : string) (st st' : Build.state W) :
  assoc name (Build.cache st) = None ->
  Build.get_exe W which resolve joinpath os_name environ_get call module_dir
    name st = (Build.Ok p, st') ->
  which name (Some (joinpath module_dir Build.BINPATH)) (Build.world st')
  = Some p /\ p <> EmptyString.
Proof.
  intros Hc. unfold Build.get_exe. rewrite Hc.
  unfold Build.get_exe_uncached, Build.bind, Build.ask, Build.ret, Build.raise.
  destruct (Build.falsy (which name _ (Build.world st))).
  - destruct (Build.cmake_build _ _ _ _ _ _ _ _ _) as [[[]|e'] st1];
      [|discriminate].
    destruct (which name _ (Build.world st1)) as [q|] eqn:Hq;
      cbn [Build.falsy]; [|discriminate].
    destruct (String.eqb q EmptyString) eqn:He; [discriminate|].
    intros H; inversion H; subst. cbn [Build.world].
    apply String.eqb_neq in He. split; assumption.
  - destruct (which name _ (Build.world st)) as [q|] eqn:Hq;
      cbn [Build.falsy]; [|discriminate].
    destruct (String.eqb q EmptyString) eqn:He; [discriminate|].
    intros H; inversion H; subst. cbn [Build.world].
    apply String.eqb_neq in He. split; assumption.
Qed.

(** When the executable is missing and is still missing after a build that
    succeeded, [get_exe] raises [RuntimeError]. *)
Theorem get_exe_missing_after_build (name : string) (st st1 : Build.state W) :
  assoc name (Build.cache st) = None ->
  Build.falsy (which name (Some (joinpath module_dir Build.BINPATH))
                 (Build.world st)) = true ->
  Build.cmake_build W which resolve joinpath os_name environ_get call
    module_dir st = (Build.Ok tt, st1) ->
  Build.falsy (which name (Some (joinpath module_dir Build.BINPATH))
                 (Build.world st1)) = true ->
  Build.get_exe W which resolve joinpath os_name environ_get call module_dir
    name st = (Build.Raise Build.RuntimeError, st1).
Proof.
  intros Hc H0 Hb H1. unfold Build.get_exe. rewrite Hc.
  unfold Build.get_exe_uncached, Build.bind, Build.ask, Build.ret, Build.raise.
  rewrite H0, Hb, H1. reflexivity.
Qed.

End BuildFacts.

(** * More on the parser *)

Lemma collect_exhausted (k max_rows : nat) :
  collect (S k) max_rows [] = (0, [], [], []).
Proof. reflexivity. Qed.

Lemma first_valid_blank (s : stream) :
  forallb (has_fields 0) s = true -> first_valid s = None.
Proof.
  induction s as [|l s IH]; [reflexivity|].
  simpl. intros H. apply andb_prop in H. destruct H as [Hl Hs].
  unfold has_fields in Hl. apply Nat.eqb_eq in Hl.
  destruct (split_line l); [exact (IH Hs)|discriminate].
Qed.

Lemma block_ok_fields (n : nat) (rows rows' : list string) :
  map split_line rows = map split_line rows' ->
  block_ok n rows = block_ok n rows'.
Proof.
  intros H. unfold block_ok.
  assert (Hf : forall l, forallb (has_fields (S n)) l
                         = forallb (fun t => length t =? S n) (map split_line l)).
  { induction l as [|x l IH]; [reflexivity|]. simpl. rewrite IH. reflexivity. }
  rewrite !Hf, <- H.
  rewrite <- (length_map split_line rows), <- (length_map split_line rows'), H.
  reflexivity.
Qed.

Section ParserExtras.

Variable F : Type.
Variable to_float : string -> F.
Variable float_eq : F -> F -> bool.

(** [glowparse] returns a dataset exactly when the header row has 10
    fields, the first read stores 102 rows of 14 fields and the second 102
    rows of 16 fields, neither meets a row of another width, and the two
    first altitudes are equal; the dataset is then the one assembled from the
    fields of those rows. *)
Theorem glowparse_ok_iff (raw : string) (ds : Dataset F) :
  glowparse F to_float float_eq raw = Ok ds <->
  nbcols_of (header_read raw) = 10 /\
  invalid_of (block1_read raw) = [] /\
  nbcols_of (block1_read raw) = 14 /\
  length (rows_of (block1_read raw)) = 102 /\
  invalid_of (block2_read raw) = [] /\
  nbcols_of (block2_read raw) = 16 /\
  length (rows_of (block2_read raw)) = 102 /\
  anchors_match to_float float_eq
    (rows_of (block1_read raw)) (rows_of (block2_read raw)) = true /\
  ds = assemble to_float (rows_of (block1_read raw)) (rows_of (block2_read raw)).
Proof.
  unfold glowparse. rewrite glowparse_io_checks. unfold glowparse_checks.
  unfold block2_read, block1_read, header_read.
  destruct (collect 1 1 (readlines raw)) as [[[n0 rows0] inv0] s1].
  cbn [nbcols_of rest_of].
  destruct (Nat.eqb_spec n0 10) as [E0|E0]; cbn [negb fst];
    [|split; [discriminate|intros [H _]; contradiction]].
  unfold Nalt.
  pose proof (collect_count 1 102 s1) as C1.
  destruct (collect 1 102 s1) as [[[n1 rows1] inv1] s2].
  cbn [nbcols_of rows_of invalid_of rest_of] in *.
  destruct inv1 as [|i1 inv1]; cbn [fst];
    [|split; [discriminate|intros (_ & H & _); discriminate]].
  destruct C1 as [C1le C1rest]; [lia|].
  unfold is_table.
  destruct (Nat.leb_spec 2 (length rows1)) as [T1|T1]; cbn [andb negb fst];
    [|split; [discriminate|intros (_ & _ & _ & H & _); lia]].
  destruct (Nat.eqb_spec n1 14) as [E1|E1];
    [subst n1|destruct (n1 =? 1); cbn [negb fst];
              (split; [discriminate|intros (_ & _ & H & _); contradiction])].
  cbn [Nat.eqb negb fst].
  destruct (Nat.lt_ge_cases (length rows1) 102) as [Hlt|Hge].
  { rewrite (C1rest Hlt). cbn.
    split; [discriminate|intros (_ & _ & _ & H & _); lia]. }
  assert (L1 : length rows1 = 102) by lia.
  destruct (collect 1 102 s2) as [[[n2 rows2] inv2] s3].
  cbn [nbcols_of rows_of invalid_of rest_of] in *.
  destruct inv2 as [|i2 inv2]; cbn [fst];
    [|split; [discriminate|intros (_ & _ & _ & _ & H & _); discriminate]].
  rewrite L1.
  destruct (Nat.leb_spec 2 (length rows2)) as [T2|T2]; cbn [andb negb fst];
    [|split; [discriminate|intros (_ & _ & _ & _ & _ & _ & H & _); lia]].
  destruct (Nat.eqb_spec n2 16) as [E2|E2].
  - subst n2. cbn [Nat.eqb negb fst andb].
    destruct (anchors_match to_float float_eq rows1 rows2); cbn [negb fst];
      [|split; [discriminate|intros (_ & _ & _ & _ & _ & _ & _ & H & _);
                              discriminate]].
    rewrite andb_true_r.
    destruct (Nat.eqb_spec (length rows2) 102) as [L2|L2]; cbn [negb fst].
    + split; [intros H; inversion H; repeat split; assumption|].
      intros (_ & _ & _ & _ & _ & _ & _ & _ & H). subst ds. reflexivity.
    + split; [discriminate|intros (_ & _ & _ & _ & _ & _ & H & _); contradiction].
  - rewrite andb_false_r.
    destruct (n2 =? 1); cbn [negb fst];
      try destruct (anchors_match to_float float_eq rows1 rows2);
      cbn [negb fst];
      (split; [discriminate|intros (_ & _ & _ & _ & _ & H & _); contradiction]).
Qed.

(** On the layout of the executable, [glowparse] stops reading at the end
    of the second block, whether it returns or raises on the altitude
    anchor: the lines that follow are left in the stream. *)
Theorem glowparse_stops_after_blocks (raw echo hdr title1 : string)
    (rows1 : list string) (title2 : string) (rows2 post : list string) :
  readlines raw = glow_lines echo hdr title1 rows1 title2 rows2 post ->
  has_fields 10 hdr = true ->
  block_ok 13 rows1 = true ->
  block_ok 15 rows2 = true ->
  glowparse_position F to_float float_eq raw = post.
Proof.
  intros Hraw Hh H1 H2. unfold glowparse_position.
  rewrite Hraw, glowparse_io_layout by assumption.
  destruct (anchors_match _ _ _ _); reflexivity.
Qed.

(** The result depends on the text only through the fields of the data
    rows: the echo line, the values of the header row, the two title lines,
    the lines after the second block, and the spacing and comments of the
    rows play no part. *)
Theorem glowparse_fields_only (raw raw' echo echo' hdr hdr' : string)
    (title1 title1' title2 title2' : string)
    (rows1 rows1' rows2 rows2' post post' : list string) :
  readlines raw = glow_lines echo hdr title1 rows1 title2 rows2 post ->
  readlines raw' = glow_lines echo' hdr' title1' rows1' title2' rows2' post' ->
  has_fields 10 hdr = true ->
  has_fields 10 hdr' = true ->
  block_ok 13 rows1 = true ->
  block_ok 15 rows2 = true ->
  map split_line rows1 = map split_line rows1' ->
  map split_line rows2 = map split_line rows2' ->
  glowparse F to_float float_eq raw' = glowparse F to_float float_eq raw.
Proof.
  intros Hraw Hraw' Hh Hh' H1 H2 E1 E2.
  assert (H1' : block_ok 13 rows1' = true)
    by (rewrite <- (block_ok_fields 13 _ _ E1); exact H1).
  assert (H2' : block_ok 15 rows2' = true)
    by (rewrite <- (block_ok_fields 15 _ _ E2); exact H2).
  unfold glowparse.
  rewrite Hraw, Hraw', !glowparse_io_layout by assumption.
  rewrite <- E1, <- E2.
  destruct (anchors_match _ _ _ _); reflexivity.
Qed.

(** A text with no field after its first line (the empty text, a single
    line, or only blank and comment lines after it) fails the header
    assertion. *)
Theorem glowparse_no_header (raw : string) :
  forallb (has_fields 0) (tl (readlines raw)) = true ->
  glowparse F to_float float_eq raw = Raise AssertionError.
Proof.
  intros Hb. unfold glowparse. rewrite glowparse_io_checks.
  unfold glowparse_checks, collect.
  destruct (readlines raw) as [|l s]; [reflexivity|].
  cbn [skip_lines tl] in *. rewrite (first_valid_blank s Hb). reflexivity.
Qed.

Lemma zip_cons_nth (r : list F) (cols : list (list F)) :
  forall k col,
    nth_error (zip_cons F r cols) k = Some col ->
    exists x c, nth_error r k = Some x /\ nth_error cols k = Some c /\
                col = x :: c.
Proof.
  revert cols. induction r as [|x r IH]; intros [|c cols] k col H;
    try (destruct k; discriminate).
  destruct k as [|k]; simpl in *.
  - inversion H; subst. eauto.
  - apply IH. exact H.
Qed.

(** Entry [i] of column [k] of the transpose is entry [k] of row [i]. *)
Lemma transpose_nth (n : nat) (m : list (list F)) :
  forall k col i,
    nth_error (transpose F n m) k = Some col ->
    nth_error col i
    = match nth_error m i with
      | Some r => nth_error r k
      | None => None
      end.
Proof.
  induction m as [|r m IH]; intros k col i H; simpl in H.
  - assert (col = []) by (apply nth_error_In in H; apply repeat_spec in H;
                          exact H).
    subst. destruct i; reflexivity.
  - apply zip_cons_nth in H. destruct H as (x & c & Hx & Hc & ->).
    destruct i as [|i]; simpl; [symmetry; exact Hx|].
    apply (IH k c i Hc).
Qed.

Lemma assoc_combine_nth (keys : list string) :
  forall (vals : list (list F)) k name v,
    NoDup keys ->
    nth_error keys k = Some name ->
    nth_error vals k = Some v ->
    assoc name (map (fun kv => (fst kv, Var1 "alt_km" (snd kv)))
                    (combine keys vals))
    = Some (Var1 "alt_km" v).
Proof.
  induction keys as [|key keys IH]; intros vals k name v Hnd Hk Hv.
  - destruct k; discriminate.
  - destruct vals as [|val vals]; [destruct k; discriminate|].
    inversion Hnd as [|? ? Hnotin Hnd']; subst.
    destruct k as [|k]; simpl in *.
    + inversion Hk; inversion Hv; subst. rewrite String.eqb_refl. reflexivity.
    + destruct (String.eqb_spec name key) as [->|_].
      * exfalso. apply Hnotin. eapply nth_error_In. exact Hk.
      * eapply IH; eassumption.
Qed.

Lemma assoc_app_left {A : Type} (k : string) (l l' : list (string * A)) (a : A) :
  assoc k l = Some a -> assoc k (l ++ l') = Some a.
Proof.
  induction l as [|[k' a'] l IH]; [discriminate|].
  simpl. destruct (String.eqb k k'); [trivial|exact IH].
Qed.

Lemma glow_var_NoDup : NoDup glow_var.
Proof.
  unfold glow_var.
  repeat (constructor; [simpl; intros H;
                        repeat (destruct H as [H|H]; [discriminate|]);
                        exact H|]).
  constructor.
Qed.

Lemma field_value (rows : list (list string)) (n i k : nat) :
  Forall (fun r => length r = n) rows ->
  i < length rows -> S k < n ->
  match nth_error (map (skipn 1) (to_floats to_float rows)) i with
  | Some r => nth_error r k
  | None => None
  end = Some (to_float (nth (S k) (nth i rows []) EmptyString)).
Proof.
  intros Hw Hi Hk. rewrite to_floats_drop. unfold to_floats.
  rewrite !nth_error_map.
  destruct (nth_error rows i) as [r|] eqn:Hr;
    [|apply nth_error_None in Hr; lia].
  rewrite (nth_error_nth _ _ [] Hr). cbn [option_map].
  rewrite Forall_forall in Hw. pose proof (Hw r (nth_error_In _ _ Hr)) as Hl.
  destruct r as [|a r]; [simpl in Hl; lia|]. cbn [skipn nth].
  rewrite nth_error_map.
  destruct (nth_error r k) as [x|] eqn:Hx;
    [|apply nth_error_None in Hx; simpl in Hl; lia].
  rewrite (nth_error_nth _ _ EmptyString Hx). reflexivity.
Qed.

(** The columns map to the names by position: on the layout of the
    executable, the value of the quantity of index [k] (0 for "Tn", 12 for
    "hall") at altitude index [i] is the float of field [k + 1] of row [i]
    of the first block, and altitude [i] is the float of field 0 of that
    row. *)
Theorem glowparse_profile_values (raw echo hdr title1 : string)
    (rows1 : list string) (title2 : string) (rows2 post : list string) :
  readlines raw = glow_lines echo hdr title1 rows1 title2 rows2 post ->
  has_fields 10 hdr = true ->
  block_ok 13 rows1 = true ->
  block_ok 15 rows2 = true ->
  anchors_match to_float float_eq
    (map split_line rows1) (map split_line rows2) = true ->
  exists ds alt,
    glowparse F to_float float_eq raw = Ok ds /\
    assoc "alt_km" (coords ds) = Some (CoordF alt) /\
    forall i, i < 102 ->
      nth_error alt i
      = Some (to_float (nth 0 (split_line (nth i rows1 EmptyString))
                            EmptyString)) /\
      forall k name, nth_error glow_var k = Some name ->
        profile_at ds name i
        = Some (to_float (nth (S k) (split_line (nth i rows1 EmptyString))
                              EmptyString)).
Proof.
  intros Hraw Hh H1 H2 Ha.
  pose proof (block_ok_rows _ _ H1) as [L1 W1].
  apply has_fields_width in W1.
  exists (assemble to_float (map split_line rows1) (map split_line rows2)),
         (altitudes to_float (map split_line rows1)).
  split; [unfold glowparse; rewrite Hraw, glowparse_io_layout by assumption;
          rewrite Ha; reflexivity|].
  split; [reflexivity|].
  intros i Hi.
  assert (Hrow : nth i (map split_line rows1) []
                 = split_line (nth i rows1 EmptyString)).
  { rewrite <- (map_nth split_line).
    apply nth_indep. rewrite length_map. lia. }
  split.
  - unfold altitudes. rewrite nth_error_map.
    destruct (nth_error (map split_line rows1) i) as [r|] eqn:Hr;
      [|apply nth_error_None in Hr; rewrite length_map in Hr; lia].
    rewrite <- Hrow, (nth_error_nth _ _ [] Hr). cbn [option_map].
    destruct r; reflexivity.
  - intros k name Hk.
    assert (Hk13 : k < 13).
    { change 13 with (length glow_var). apply nth_error_Some.
      rewrite Hk. discriminate. }
    pose proof (drop_column_width F to_float 13 _ W1) as D1.
    destruct (transpose_shape F 13 _ D1) as [TL _].
    destruct (nth_error (transpose F 13
                (map (skipn 1) (to_floats to_float (map split_line rows1)))) k)
      as [col|] eqn:Hcol; [|apply nth_error_None in Hcol; lia].
    unfold profile_at, getitem, assemble. cbn [data_vars].
    rewrite (assoc_app_left name _ _ (Var1 "alt_km" col)
               (assoc_combine_nth glow_var _ k name col glow_var_NoDup Hk Hcol)).
    rewrite (transpose_nth _ _ k col i Hcol).
    rewrite (field_value (map split_line rows1) 14 i k W1);
      [rewrite Hrow; reflexivity|rewrite length_map; lia|lia].
Qed.

(** The emission rates map to the wavelengths by position: entry [i], [j]
    of the array "ver" is the float of field [j + 1] of row [i] of the second
    block, under the label of index [j]; the labels are held as texts. *)
Theorem glowparse_ver_values (raw echo hdr title1 : string)
    (rows1 : list string) (title2 : string) (rows2 post : list string) :
  readlines raw = glow_lines echo hdr title1 rows1 title2 rows2 post ->
  has_fields 10 hdr = true ->
  block_ok 13 rows1 = true ->
  block_ok 15 rows2 = true ->
  anchors_match to_float float_eq
    (map split_line rows1) (map split_line rows2) = true ->
  exists ds ver,
    glowparse F to_float float_eq raw = Ok ds /\
    getitem ds "ver" = Some (Var2 "alt_km" "wavelength" ver) /\
    assoc "wavelength" (coords ds)
    = Some (CoordL (map LStr
                    ["3371"; "4278"; "5200"; "5577"; "6300"; "7320"; "10400";
                     "3644"; "7774"; "8446"; "3726"; "LBH"; "1356"; "1493";
                     "1304"])) /\
    forall i j, i < 102 -> j < 15 ->
      match nth_error ver i with
      | Some r => nth_error r j
      | None => None
      end
      = Some (to_float (nth (S j) (split_line (nth i rows2 EmptyString))
                            EmptyString)).
Proof.
  intros Hraw Hh H1 H2 Ha.
  pose proof (block_ok_rows _ _ H1) as [L1 W1].
  pose proof (block_ok_rows _ _ H2) as [L2 W2].
  apply has_fields_width in W1. apply has_fields_width in W2.
  exists (assemble to_float (map split_line rows1) (map split_line rows2)),
         (map (skipn 1) (to_floats to_float (map split_line rows2))).
  split; [unfold glowparse; rewrite Hraw, glowparse_io_layout by assumption;
          rewrite Ha; reflexivity|].
  split.
  { unfold getitem, assemble. cbn [data_vars].
    pose proof (drop_column_width F to_float 13 _ W1) as D1.
    destruct (transpose_shape F 13 _ D1) as [TL _].
    destruct (transpose F 13 _) as [|c0 [|c1 [|c2 [|c3 [|c4 [|c5 [|c6 [|c7
      [|c8 [|c9 [|c10 [|c11 [|c12 [|c13 cs]]]]]]]]]]]]]]; try discriminate.
    reflexivity. }
  split; [reflexivity|].
  intros i j Hi Hj.
  rewrite (field_value (map split_line rows2) 16 i j W2);
    [|rewrite length_map; lia|lia].
  f_equal. f_equal. f_equal.
  rewrite <- (map_nth split_line). apply nth_indep. rewrite length_map. lia.
Qed.

End ParserExtras.

(** ** Blank lines and ragged rows *)

Lemma parse_lines_rows_then (n max_rows : nat) (lines tail : list string) :
  forall rows invalid,
    n <> 0 ->
    forallb (fun l => has_fields 0 l || has_fields n l) lines = true ->
    length rows + length (filter has_field lines) < max_rows ->
    parse_lines n max_rows (lines ++ tail) rows invalid
    = parse_lines n max_rows tail
        (rows ++ map split_line (filter has_field lines)) invalid.
Proof.
  induction lines as [|line lines IH]; intros rows invalid Hn Hf Hlen.
  - simpl. rewrite app_nil_r. reflexivity.
  - simpl in Hf. apply andb_prop in Hf. destruct Hf as [Hl Hf].
    assert (Hhf : has_field line = negb (length (split_line line) =? 0))
      by reflexivity.
    cbn [app parse_lines filter] in *. rewrite Hhf in *.
    unfold has_fields in Hl.
    destruct (length (split_line line) =? 0) eqn:E0; cbn [negb orb] in *.
    + apply IH; assumption.
    + rewrite Hl. cbn [negb]. cbn [length] in Hlen.
      replace (length (rows ++ [split_line line]) =? max_rows) with false
        by (symmetry; apply Nat.eqb_neq; rewrite length_app; simpl; lia).
      rewrite IH; [|assumption|assumption|rewrite length_app; simpl; lia].
      cbn [map]. rewrite <- app_assoc. reflexivity.
Qed.

Lemma first_valid_parse (n max_rows : nat) (s : stream) :
  forall line t rows invalid,
    first_valid s = Some (line, t) ->
    parse_lines n max_rows (line :: t) rows invalid
    = parse_lines n max_rows s rows invalid.
Proof.
  induction s as [|l s IH]; intros line t rows invalid H; [discriminate|].
  simpl in H. destruct (split_line l) as [|v vs] eqn:E.
  - rewrite (IH _ _ rows invalid H).
    symmetry. cbn [parse_lines]. rewrite E. reflexivity.
  - inversion H; subst. reflexivity.
Qed.

Lemma first_valid_block (n : nat) (lines : list string) (last : string)
    (rest : list string) :
  n <> 0 ->
  forallb (fun l => has_fields 0 l || has_fields n l) lines = true ->
  has_fields n last = true ->
  exists line t,
    first_valid (lines ++ last :: rest) = Some (line, t) /\
    length (split_line line) = n.
Proof.
  intros Hn Hf Hl. induction lines as [|x lines IH].
  - exists last, rest. simpl. apply Nat.eqb_eq in Hl.
    destruct (split_line last); [simpl in Hl; congruence|split; [reflexivity|exact Hl]].
  - simpl in Hf. apply andb_prop in Hf. destruct Hf as [Hx Hf].
    cbn [app first_valid]. unfold has_fields in Hx.
    destruct (split_line x) as [|v vs] eqn:E; [exact (IH Hf)|].
    exists x, (lines ++ last :: rest). split; [reflexivity|].
    rewrite E. apply orb_prop in Hx.
    destruct Hx as [Hx|Hx]; [discriminate|apply Nat.eqb_eq in Hx; exact Hx].
Qed.

(** A read that meets blank lines among its rows stores the rows alone. *)
Lemma collect_block_blank (n max_rows : nat) (title : string)
    (lines : list string) (last : string) (rest : list string) :
  n <> 0 ->
  forallb (fun l => has_fields 0 l || has_fields n l) lines = true ->
  has_fields n last = true ->
  S (length (filter has_field lines)) = max_rows ->
  collect 1 max_rows (title :: lines ++ last :: rest)
  = (n, map split_line (filter has_field lines ++ [last]), [], rest).
Proof.
  intros Hn Hf Hl Hlen.
  destruct (first_valid_block n lines last rest Hn Hf Hl)
    as (line & t & Hv & Hw).
  unfold collect. cbn [skip_lines]. rewrite Hv, Hw.
  rewrite (first_valid_parse n max_rows _ line t [] [] Hv).
  rewrite (parse_lines_rows_then n max_rows lines (last :: rest) [] []);
    [|assumption|assumption|simpl; lia].
  cbn [app parse_lines]. unfold has_fields in Hl. rewrite Hl.
  destruct (Nat.eqb_spec n 0) as [|_]; [contradiction|].
  apply Nat.eqb_eq in Hl. rewrite Hl.
  destruct (Nat.eqb_spec n 0) as [|_]; [contradiction|]. cbn [negb].
  rewrite length_app, length_map. cbn [length].
  replace (length (filter has_field lines) + 1 =? max_rows) with true
    by (symmetry; apply Nat.eqb_eq; lia).
  rewrite map_app. reflexivity.
Qed.

Lemma parse_lines_invalid (n max_rows : nat) (s : stream) :
  forall rows invalid,
    invalid <> [] ->
    invalid_of (0, fst (fst (parse_lines n max_rows s rows invalid)),
                snd (fst (parse_lines n max_rows s rows invalid)),
                snd (parse_lines n max_rows s rows invalid)) <> [].
Proof.
  induction s as [|l s IH]; intros rows invalid Hi; [exact Hi|].
  cbn [parse_lines].
  destruct (length (split_line l) =? 0); [apply IH; exact Hi|].
  destruct (negb (length (split_line l) =? n)).
  - apply IH. destruct invalid; discriminate.
  - destruct (length (rows ++ [split_line l]) =? max_rows);
      [exact Hi|apply IH; exact Hi].
Qed.

Lemma filter_has_field (n : nat) (lines : list string) :
  n <> 0 ->
  forallb (has_fields n) lines = true ->
  filter has_field lines = lines /\
  forallb (fun l => has_fields 0 l || has_fields n l) lines = true.
Proof.
  intros Hn. induction lines as [|l lines IH]; [split; reflexivity|].
  simpl. intros H. apply andb_prop in H. destruct H as [Hl H].
  destruct (IH H) as [IH1 IH2]. rewrite Hl, IH2, orb_true_r.
  unfold has_field, has_fields in *. apply Nat.eqb_eq in Hl. rewrite Hl.
  destruct (Nat.eqb_spec n 0) as [|_]; [contradiction|].
  cbn [negb]. rewrite IH1. split; reflexivity.
Qed.

(** A first block that has a row of another width among its first 102 rows
    makes the read record the row as invalid. *)
Lemma collect_ragged (n k : nat) (title : string) (good : list string)
    (bad : string) (rest : list string) :
  n <> 0 -> k <> 0 -> k <> n ->
  good <> [] ->
  forallb (has_fields n) good = true ->
  length good < 102 ->
  has_fields k bad = true ->
  invalid_of (collect 1 102 (title :: good ++ bad :: rest)) <> [].
Proof.
  intros Hn Hk Hkn Hg Hf Hlen Hb.
  destruct (filter_has_field n good Hn Hf) as [Hfil Hor].
  destruct good as [|g good]; [contradiction|].
  assert (Hgw : length (split_line g) = n).
  { simpl in Hf. apply andb_prop in Hf. destruct Hf as [Hgw _].
    apply Nat.eqb_eq. exact Hgw. }
  assert (Hv : first_valid ((g :: good) ++ bad :: rest)
               = Some (g, good ++ bad :: rest)).
  { simpl. destruct (split_line g); [simpl in Hgw; congruence|reflexivity]. }
  unfold collect. cbn [skip_lines]. rewrite Hv, Hgw.
  change (g :: good ++ bad :: rest) with ((g :: good) ++ bad :: rest).
  rewrite (parse_lines_rows_then n 102 (g :: good) (bad :: rest) [] []);
    [|assumption|assumption|rewrite Hfil; simpl in *; lia].
  cbn [parse_lines]. unfold has_fields in Hb. apply Nat.eqb_eq in Hb.
  rewrite Hb.
  destruct (Nat.eqb_spec k 0) as [|_]; [contradiction|].
  destruct (Nat.eqb_spec k n) as [|_]; [contradiction|]. cbn [negb app].
  pose proof (parse_lines_invalid n 102 rest
                ([] ++ map split_line (filter has_field (g :: good))) [k])
    as Hi.
  destruct (parse_lines n 102 rest _ [k]) as [[rows invalid] rest'].
  cbn [invalid_of fst snd] in *. apply Hi. discriminate.
Qed.

Section ParserEdges.

Variable F : Type.
Variable to_float : string -> F.
Variable float_eq : F -> F -> bool.

(** What [glowparse] does once the three reads are known to have gone
    well. *)
Lemma glowparse_io_reads (s s1 s2 s3 : stream)
    (rows0 rows1 rows2 : list (list string)) :
  collect 1 1 s = (10, rows0, [], s1) ->
  collect 1 102 s1 = (14, rows1, [], s2) ->
  collect 1 102 s2 = (16, rows2, [], s3) ->
  length rows1 = 102 ->
  length rows2 = 102 ->
  glowparse_io F to_float float_eq s
  = if anchors_match to_float float_eq rows1 rows2
    then (Ok (assemble to_float rows1 rows2), s3)
    else (Raise AssertionError, s3).
Proof.
  intros H0 H1 H2 L1 L2. rewrite glowparse_io_checks.
  unfold glowparse_checks, Nalt. rewrite H0. cbn [Nat.eqb negb].
  rewrite H1. unfold is_table. rewrite L1. cbn [Nat.leb Nat.eqb negb andb].
  rewrite H2, L2. cbn [Nat.leb Nat.eqb negb andb].
  destruct (anchors_match _ _ _ _); reflexivity.
Qed.

(** Blank lines and comment lines among the rows of a block are skipped:
    the text parses as the text without them. *)
Theorem glowparse_blank_lines (raw raw' echo hdr title1 : string)
    (body1 : list string) (last1 title2 : string) (body2 : list string)
    (last2 : string) (post : list string) :
  readlines raw
  = glow_lines echo hdr title1 (body1 ++ [last1]) title2 (body2 ++ [last2])
      post ->
  readlines raw'
  = glow_lines echo hdr title1 (filter has_field body1 ++ [last1]) title2
      (filter has_field body2 ++ [last2]) post ->
  has_fields 10 hdr = true ->
  forallb (fun l => has_fields 0 l || has_fields 14 l) body1 = true ->
  has_fields 14 last1 = true ->
  length (filter has_field body1) = 101 ->
  forallb (fun l => has_fields 0 l || has_fields 16 l) body2 = true ->
  has_fields 16 last2 = true ->
  length (filter has_field body2) = 101 ->
  glowparse F to_float float_eq raw = glowparse F to_float float_eq raw'.
Proof.
  intros Hraw Hraw' Hh B1 E1 L1 B2 E2 L2.
  assert (H0 : forall t, collect 1 1 (echo :: hdr :: t)
                         = (10, [split_line hdr], [], t)).
  { intros t. change (hdr :: t) with ([hdr] ++ t).
    apply (collect_block 10 1 echo [hdr] t);
      [discriminate|simpl; rewrite Hh; reflexivity|discriminate|reflexivity]. }
  assert (G : forall b1 b2,
             forallb (fun l => has_fields 0 l || has_fields 14 l) b1 = true ->
             length (filter has_field b1) = 101 ->
             forallb (fun l => has_fields 0 l || has_fields 16 l) b2 = true ->
             length (filter has_field b2) = 101 ->
             glowparse_io F to_float float_eq
               (glow_lines echo hdr title1 (b1 ++ [last1]) title2
                  (b2 ++ [last2]) post)
             = if anchors_match to_float float_eq
                    (map split_line (filter has_field b1 ++ [last1]))
                    (map split_line (filter has_field b2 ++ [last2]))
               then (Ok (assemble to_float
                           (map split_line (filter has_field b1 ++ [last1]))
                           (map split_line (filter has_field b2 ++ [last2]))),
                     post)
               else (Raise AssertionError, post)).
  { intros b1 b2 Hb1 Hl1 Hb2 Hl2. unfold glow_lines.
    rewrite <- !app_assoc. cbn [app].
    eapply (glowparse_io_reads _ _ _ _ [split_line hdr]).
    - apply H0.
    - apply collect_block_blank; [discriminate|assumption|assumption|lia].
    - apply collect_block_blank; [discriminate|assumption|assumption|lia].
    - rewrite length_map, length_app. simpl. lia.
    - rewrite length_map, length_app. simpl. lia. }
  assert (Hid : forall b, filter has_field (filter has_field b)
                          = filter has_field b).
  { induction b as [|x b IH]; [reflexivity|].
    simpl. destruct (has_field x) eqn:E; [simpl; rewrite E, IH|]; trivial. }
  assert (Hor : forall n b,
             forallb (fun l => has_fields 0 l || has_fields n l) b = true ->
             forallb (fun l => has_fields 0 l || has_fields n l)
                     (filter has_field b) = true).
  { intros n b. induction b as [|x b IH]; [trivial|].
    simpl. intros H. apply andb_prop in H. destruct H as [Hx H].
    destruct (has_field x); [simpl; rewrite Hx; exact (IH H)|exact (IH H)]. }
  unfold glowparse. rewrite Hraw, Hraw'.
  rewrite (G body1 body2) by assumption.
  rewrite (G (filter has_field body1) (filter has_field body2));
    [|apply Hor; assumption|rewrite Hid; assumption
     |apply Hor; assumption|rewrite Hid; assumption].
  rewrite !Hid. reflexivity.
Qed.

(** A row of another width among the first 102 rows of the first block is
    not dropped: [glowparse] raises [ValueError]. *)
Theorem glowparse_ragged_row (raw echo hdr title1 : string)
    (good : list string) (bad : string) (rest : list string) (n k : nat) :
  readlines raw = echo :: hdr :: title1 :: good ++ bad :: rest ->
  has_fields 10 hdr = true ->
  good <> [] ->
  forallb (has_fields n) good = true ->
  length good < 102 ->
  has_fields k bad = true ->
  n <> 0 -> k <> 0 -> k <> n ->
  glowparse F to_float float_eq raw = Raise ValueError.
Proof.
  intros Hraw Hh Hg Hf Hlen Hb Hn Hk Hkn.
  unfold glowparse. rewrite Hraw, glowparse_io_checks.
  unfold glowparse_checks, Nalt.
  change (hdr :: title1 :: good ++ bad :: rest)
    with ([hdr] ++ (title1 :: good ++ bad :: rest)).
  rewrite (collect_block 10 1 echo [hdr]);
    [|discriminate|simpl; rewrite Hh; reflexivity|discriminate|reflexivity].
  cbn [Nat.eqb negb].
  pose proof (collect_ragged n k title1 good bad rest Hn Hk Hkn Hg Hf Hlen Hb)
    as Hi.
  destruct (collect 1 102 _) as [[[n1 rows1] inv1] s2].
  cbn [invalid_of] in Hi. destruct inv1; [contradiction|reflexivity].
Qed.

End ParserEdges.

(** * glowread and maxwellian, end to end *)

Section Driver.

Variable F : Type.
Variable to_float : string -> F.
Variable float_eq : F -> F -> bool.
Variable str_float : F -> string.

(** [glowread] raises what [glowparse] raises; otherwise it returns the
    dataset of [glowparse] with its coordinates and variables untouched and
    with exactly three attributes: the indices, the time in ISO format, and
    the pair of latitude and longitude. *)
Theorem glowread_result (raw : string) (time : datetime) (ip : DataFrame F)
    (glat glon : F) :
  glowread F to_float float_eq raw time ip glat glon
  = match glowparse F to_float float_eq raw with
    | Ok ds => Ok (mkDataset (coords ds) (data_vars ds)
                     (glow_attrs time ip glat glon))
    | Raise e => Raise e
    end.
Proof.
  unfold glowread, rbind.
  destruct (glowparse F to_float float_eq raw) as [ds|e] eqn:Hp;
    [|reflexivity].
  apply glowparse_ok_iff in Hp.
  destruct Hp as (_ & _ & _ & _ & _ & _ & _ & _ & ->).
  reflexivity.
Qed.

(** When the executable cannot be found or built, [maxwellian] raises and
    writes nothing to any process. *)
Theorem maxwellian_without_exe (w : World F) (time : datetime)
    (glat glon Q Echar : F) (e : exn) :
  get_exe F w = Raise e ->
  fst (maxwellian F to_float float_eq str_float w time glat glon Q Echar) = []
  /\ raises (snd (maxwellian F to_float float_eq str_float w time
                    glat glon Q Echar)).
Proof.
  intros He. unfold maxwellian.
  destruct (glowdate time) as [idate utsec].
  destruct (minus_one_day time) as [before|e1]; [|split; [reflexivity|exact I]].
  cbn [rbind].
  destruct (get_indices w [before; time] 81) as [ip|e2];
    [|split; [reflexivity|exact I]].
  cbn [rbind]. rewrite He. split; [reflexivity|exact I].
Qed.

(** When the run of the executable fails (non-zero exit, time out),
    [maxwellian] raises that error: the line was written once and the run is
    not tried again. *)
Theorem maxwellian_process_failure (w : World F) (time : datetime)
    (glat glon Q Echar : F) (exe line : string) (e : exn) :
  get_exe F w = Ok exe ->
  In line (fst (maxwellian F to_float float_eq str_float w time
                  glat glon Q Echar)) ->
  check_output F w exe line = Raise e ->
  maxwellian F to_float float_eq str_float w time glat glon Q Echar
  = ([line], Raise e).
Proof.
  intros He Hin Hc. unfold maxwellian in *.
  destruct (glowdate time) as [idate utsec].
  destruct (minus_one_day time) as [before|e1]; [|contradiction].
  cbn [rbind] in *.
  destruct (get_indices w [before; time] 81) as [ip|e2]; [|contradiction].
  cbn [rbind] in *. rewrite He in *. cbn [rbind] in *.
  destruct (stdin_line F str_float idate utsec glat glon ip Q Echar)
    as [l|e3]; [|contradiction].
  cbn [rbind fst] in *. destruct Hin as [->|[]].
  rewrite Hc. reflexivity.
Qed.

(** End to end: when the indices have two rows, the executable is found and
    prints a text that [glowparse] accepts, [maxwellian] returns the dataset
    of that text, with the three attributes of [glowread]. *)
Theorem maxwellian_ok (w : World F) (time before : datetime)
    (glat glon Q Echar : F) (ip : DataFrame F) (exe raw : string)
    (ds : Dataset F) :
  minus_one_day time = Ok before ->
  get_indices w [before; time] 81 = Ok ip ->
  2 <= length ip ->
  get_exe F w = Ok exe ->
  (forall line,
     In line (fst (maxwellian F to_float float_eq str_float w time
                     glat glon Q Echar)) ->
     check_output F w exe line = Ok raw) ->
  glowparse F to_float float_eq raw = Ok ds ->
  snd (maxwellian F to_float float_eq str_float w time glat glon Q Echar)
  = Ok (mkDataset (coords ds) (data_vars ds) (glow_attrs time ip glat glon)).
Proof.
  intros Hb Hi Hlen He Hc Hp. unfold maxwellian in *.
  destruct (glowdate time) as [idate utsec].
  rewrite Hb in *. cbn [rbind] in *. rewrite Hi in *. cbn [rbind] in *.
  rewrite He in *. cbn [rbind] in *.
  unfold stdin_line, iloc in *.
  destruct ip as [|r0 [|r1 ip]]; [simpl in Hlen; lia|simpl in Hlen; lia|].
  cbn [nth_error rbind fst snd] in *.
  rewrite (Hc _ (or_introl eq_refl)). cbn [rbind].
  rewrite glowread_result, Hp. reflexivity.
Qed.

End Driver.

(** * The date fields as an encoding *)

Lemma append_length (a b : string) :
  String.length (a ++ b) = String.length a + String.length b.
Proof.
  induction a as [|c a IH]; [reflexivity|]. simpl. rewrite IH. reflexivity.
Qed.

Lemma append_suffix_inj (a b p q : string) :
  (a ++ p)%string = (b ++ q)%string ->
  String.length p = String.length q ->
  a = b /\ p = q.
Proof.
  revert b. induction a as [|c a IH]; intros [|d b] H Hl; simpl in H.
  - split; [reflexivity|exact H].
  - exfalso. apply (f_equal String.length) in H. simpl in H.
    rewrite append_length in H. lia.
  - exfalso. apply (f_equal String.length) in H. simpl in H.
    rewrite append_length in H. lia.
  - inversion H as [[Hc Hab]]. destruct (IH b Hab Hl) as [-> ->].
    split; reflexivity.
Qed.

Lemma str_int_inj (x y : Z) : str_int x = str_int y -> x = y.
Proof.
  intros H. apply (f_equal int_of_str) in H.
  rewrite !int_of_str_int in H. inversion H. reflexivity.
Qed.

Lemma yday_field_value (d : Z) :
  (1 <= d <= 366)%Z -> int_of_str (zero_pad 3 (str_int d)) = Some d.
Proof.
  intros H.
  assert (Hall : forallb (fun d => match int_of_str (zero_pad 3 (str_int d)) with
                                   | Some n => (n =? d)%Z
                                   | None => false
                                   end) (Zrange 1 366) = true)
    by (vm_compute; reflexivity).
  rewrite forallb_forall in Hall.
  specialize (Hall d (Zrange_In 1 d 366 ltac:(lia))).
  destruct (int_of_str (zero_pad 3 (str_int d))) as [n|]; [|discriminate].
  apply Z.eqb_eq in Hall. subst. reflexivity.
Qed.

Ltac month_table :=
  cbv [nth Z.to_nat Pos.to_nat Pos.iter_op Nat.add DAYS_BEFORE_MONTH
       DAYS_IN_MONTH Z.ltb Z.eqb Z.compare Pos.compare Pos.compare_cont
       andb Pos.eqb] in *.

(** In one year, the day of the year determines the month and the day. *)
Lemma yday_inj (y m1 d1 m2 d2 : Z) :
  (1 <= m1 <= 12)%Z -> (1 <= d1 <= days_in_month y m1)%Z ->
  (1 <= m2 <= 12)%Z -> (1 <= d2 <= days_in_month y m2)%Z ->
  (days_before_month y m1 + d1 = days_before_month y m2 + d2)%Z ->
  m1 = m2 /\ d1 = d2.
Proof.
  intros Hm1 Hd1 Hm2 Hd2 H.
  unfold days_before_month, days_in_month in *.
  assert (C1 : (m1 = 1 \/ m1 = 2 \/ m1 = 3 \/ m1 = 4 \/ m1 = 5 \/ m1 = 6 \/
                m1 = 7 \/ m1 = 8 \/ m1 = 9 \/ m1 = 10 \/ m1 = 11 \/ m1 = 12)%Z)
    by lia.
  assert (C2 : (m2 = 1 \/ m2 = 2 \/ m2 = 3 \/ m2 = 4 \/ m2 = 5 \/ m2 = 6 \/
                m2 = 7 \/ m2 = 8 \/ m2 = 9 \/ m2 = 10 \/ m2 = 11 \/ m2 = 12)%Z)
    by lia.
  destruct (is_leap y);
    repeat (destruct C1 as [C1|C1]); subst m1;
    repeat (destruct C2 as [C2|C2]); subst m2;
    month_table; lia.
Qed.

(** [glowdate] loses the microseconds and nothing else: two timestamps
    have the same two fields exactly when they agree on the year, the month,
    the day, the hour, the minute and the second. *)
Theorem glowdate_injective (t1 t2 : datetime) :
  valid_datetime t1 = true ->
  valid_datetime t2 = true ->
  (glowdate t1 = glowdate t2 <->
   replace_microsecond t1 0 = replace_microsecond t2 0).
Proof.
  intros V1 V2. split.
  - intros H. unfold glowdate, strftime_j in H.
    inversion H as [[Hd Hs]]. clear H.
    pose proof (yday_bounds t1 V1) as Y1.
    pose proof (yday_bounds t2 V2) as Y2.
    apply append_suffix_inj in Hd;
      [|rewrite !yday_three_digits by assumption; reflexivity].
    destruct Hd as [Hy Hj].
    apply str_int_inj in Hy. apply str_int_inj in Hs.
    apply (f_equal int_of_str) in Hj.
    rewrite !yday_field_value in Hj by assumption.
    inversion Hj as [Hyd]. clear Hj.
    split_valid V1. split_valid V2.
    unfold yday in Hyd. rewrite Hy in *.
    destruct (yday_inj (year t2) (month t1) (day t1) (month t2) (day t2))
      as [Hm Hday]; try lia.
    assert (hour t1 = hour t2 /\ minute t1 = minute t2
            /\ second t1 = second t2) as (Hh & Hmin & Hsec) by lia.
    unfold replace_microsecond. congruence.
  - intros H. unfold replace_microsecond in H. inversion H as [[Hy Hm Hd Hh Hmin Hs]].
    unfold glowdate, strftime_j, yday. rewrite Hy, Hm, Hd, Hh, Hmin, Hs.
    reflexivity.
Qed.

(** The seconds field decodes: the integer it reads as gives back the
    hour, the minute and the second by division. *)
Theorem glowdate_seconds_decode (t : datetime) :
  valid_datetime t = true ->
  exists n,
    int_of_str (snd (glowdate t)) = Some n /\
    hour t = (n / 3600)%Z /\
    minute t = (n mod 3600 / 60)%Z /\
    second t = (n mod 60)%Z.
Proof.
  intros V. exists (hour t * 3600 + minute t * 60 + second t)%Z.
  split; [apply int_of_str_int|].
  split_valid V.
  repeat split; Z.div_mod_to_equations; lia.
Qed.

(** * The further properties on sample inputs *)

Lemma glowparse_profile_values_sample :
  exists ds,
    glowparse float SampleFloat.to_float SampleFloat.float_eq sample_text
    = Ok ds /\
    profile_at ds "O+" 5 = Some (SampleFloat.to_float "1.5") /\
    profile_at ds "Tn" 5 = Some (SampleFloat.to_float "185").
Proof.
  destruct (glowparse_profile_values float SampleFloat.to_float
              SampleFloat.float_eq sample_text sample_echo sample_header
              sample_title1 sample_rows1 sample_title2 sample_rows2 [])
    as (ds & alt & Hds & _ & Hv); try (vm_compute; reflexivity).
  exists ds. split; [exact Hds|].
  destruct (Hv 5 ltac:(lia)) as [_ Hk].
  split; [exact (Hk 7 "O+" eq_refl)|exact (Hk 0 "Tn" eq_refl)].
Defined.

Lemma glowparse_ver_values_sample :
  exists ds ver,
    glowparse float SampleFloat.to_float SampleFloat.float_eq sample_text
    = Ok ds /\
    getitem ds "ver" = Some (Var2 "alt_km" "wavelength" ver) /\
    match nth_error ver 3 with
    | Some r => nth_error r 11
    | None => None
    end = Some (SampleFloat.to_float "2.25").
Proof.
  destruct (glowparse_ver_values float SampleFloat.to_float
              SampleFloat.float_eq sample_text sample_echo sample_header
              sample_title1 sample_rows1 sample_title2 sample_rows2 [])
    as (ds & ver & Hds & Hver & _ & Hv); try (vm_compute; reflexivity).
  exists ds, ver. split; [exact Hds|]. split; [exact Hver|].
  exact (Hv 3 11 ltac:(lia) ltac:(lia)).
Defined.

Lemma glowparse_fields_only_sample :
  glowparse float SampleFloat.to_float SampleFloat.float_eq respaced_text
  = glowparse float SampleFloat.to_float SampleFloat.float_eq sample_text.
Proof.
  apply (glowparse_fields_only float SampleFloat.to_float
           SampleFloat.float_eq sample_text respaced_text
           sample_echo "glow" sample_header "0 0 0 0 0 0 0 0 0 0"
           sample_title1 "profiles" sample_title2 "emissions"
           sample_rows1
           (map (fun l => ("   " ++ l ++ "    # row")%string) sample_rows1)
           sample_rows2
           (map (fun l => ("   " ++ l ++ "    # row")%string) sample_rows2)
           [] ["end of output"]);
    vm_compute; reflexivity.
Defined.

Lemma glowparse_blank_lines_sample :
  glowparse float SampleFloat.to_float SampleFloat.float_eq blank_lines_text
  = glowparse float SampleFloat.to_float SampleFloat.float_eq sample_text.
Proof.
  apply (glowparse_blank_lines float SampleFloat.to_float
           SampleFloat.float_eq blank_lines_text sample_text
           sample_echo sample_header sample_title1
           (spaced_out (firstn 101 sample_rows1)) (nth 101 sample_rows1 "")
           sample_title2
           (spaced_out (firstn 101 sample_rows2)) (nth 101 sample_rows2 "")
           []);
    vm_compute; reflexivity.
Defined.

Lemma glowparse_ragged_row_sample :
  glowparse float SampleFloat.to_float SampleFloat.float_eq ragged_text
  = Raise ValueError.
Proof.
  apply (glowparse_ragged_row float SampleFloat.to_float
           SampleFloat.float_eq ragged_text sample_echo sample_header
           sample_title1 (firstn 50 sample_rows1) "130 230 1.5"
           (skipn 51 sample_rows1 ++ sample_title2 :: sample_rows2) 14 3);
    try (vm_compute; reflexivity); try discriminate.
  vm_compute. lia.
Defined.

Lemma glowparse_no_header_sample :
  glowparse float SampleFloat.to_float SampleFloat.float_eq ""
  = Raise AssertionError /\
  glowparse float SampleFloat.to_float SampleFloat.float_eq sample_echo
  = Raise AssertionError.
Proof.
  split;
    apply (glowparse_no_header float SampleFloat.to_float
             SampleFloat.float_eq); vm_compute; reflexivity.
Defined.

Lemma glowparse_stops_after_blocks_sample :
  glowparse_position float SampleFloat.to_float SampleFloat.float_eq
    trailed_text = ["more"; "lines"].
Proof.
  apply (glowparse_stops_after_blocks float SampleFloat.to_float
           SampleFloat.float_eq trailed_text sample_echo sample_header
           sample_title1 sample_rows1 sample_title2 sample_rows2
           ["more"; "lines"]);
    vm_compute; reflexivity.
Defined.

Lemma maxwellian_without_exe_sample :
  fst (maxwellian Z integral Z.eqb str_int no_exe_world sample_time
         65%Z (-148)%Z 1%Z 2000%Z) = [] /\
  raises (snd (maxwellian Z integral Z.eqb str_int no_exe_world sample_time
                 65%Z (-148)%Z 1%Z 2000%Z)).
Proof.
  apply (maxwellian_without_exe Z integral Z.eqb str_int no_exe_world
           sample_time 65%Z (-148)%Z 1%Z 2000%Z RuntimeError).
  reflexivity.
Defined.

Lemma maxwellian_process_failure_sample :
  maxwellian Z integral Z.eqb str_int timeout_world sample_time
    65%Z (-148)%Z 1%Z 2000%Z
  = (["2015355 0 65 -148 102 100 98 4 1 2000"], Raise TimeoutExpired).
Proof.
  apply (maxwellian_process_failure Z integral Z.eqb str_int timeout_world
           sample_time 65%Z (-148)%Z 1%Z 2000%Z "build/glowbasic");
    [reflexivity|vm_compute; left; reflexivity|reflexivity].
Defined.

Lemma maxwellian_ok_sample :
  exists ds,
    snd (maxwellian Z integral Z.eqb str_int sample_world sample_time
           65%Z (-148)%Z 1%Z 2000%Z) = Ok ds /\
    map fst (attrs ds) = ["geomag_params"; "time"; "glatlon"] /\
    assoc "time" (attrs ds) = Some (AttrStr Z "2015-12-21T00:00:00").
Proof.
  destruct (glowparse Z integral Z.eqb sample_text) as [ds0|e] eqn:Hp;
    [|vm_compute in Hp; discriminate].
  eexists. split.
  - apply (maxwellian_ok Z integral Z.eqb str_int sample_world sample_time
             (mkDatetime 2015 12 20 0 0 0 0) 65%Z (-148)%Z 1%Z 2000%Z
             [mkIndexRow 98%Z 101%Z 3%Z; mkIndexRow 100%Z 102%Z 4%Z]
             "build/glowbasic" sample_text ds0);
      [reflexivity|reflexivity|simpl; lia|reflexivity|reflexivity|exact Hp].
  - split; reflexivity.
Defined.

Lemma glowdate_injective_sample :
  glowdate late_time = glowdate (mkDatetime 2016 12 31 23 59 59 0).
Proof.
  apply (glowdate_injective late_time (mkDatetime 2016 12 31 23 59 59 0));
    reflexivity.
Defined.

Lemma glowdate_seconds_decode_sample :
  exists n,
    int_of_str (snd (glowdate late_time)) = Some n /\
    hour late_time = (n / 3600)%Z /\
    minute late_time = (n mod 3600 / 60)%Z /\
    second late_time = (n mod 60)%Z.
Proof.
  apply (glowdate_seconds_decode late_time). reflexivity.
Defined.

Lemma cmake_build_without_cmake_sample :
  Build.pc_cmake_build "/opt/glow" (Build.pc_state Build.bare_pc)
  = (Build.Raise Build.FileNotFoundError, Build.pc_state Build.bare_pc).
Proof.
  apply (cmake_build_without_cmake Build.PC Build.pc_which Build.pc_resolve
           Build.pc_joinpath Build.platform Build.pc_environ_get
           Build.pc_call "/opt/glow" (Build.pc_state Build.bare_pc)).
  reflexivity.
Defined.

Lemma cmake_build_configure_fails_sample :
  fst (Build.cmake_build Build.PC Build.pc_which Build.pc_resolve
         Build.pc_joinpath Build.platform Build.pc_environ_get
         (fun _ w => (1%Z, w)) "/opt/glow" (Build.pc_state Build.fresh_pc))
  = Build.Raise
      (Build.CalledProcessError 1
         ["/usr/bin/cmake"; "-S/opt/glow"; "-B/opt/glow/build"]).
Proof.
  rewrite (cmake_build_configure_fails Build.PC Build.pc_which
             Build.pc_resolve Build.pc_joinpath Build.platform
             Build.pc_environ_get (fun _ w => (1%Z, w))
             "/opt/glow" "/opt/glow" "/usr/bin/cmake"
             (Build.pc_state Build.fresh_pc) 1%Z Build.fresh_pc);
    try reflexivity; discriminate.
Defined.

Lemma cmake_build_ok_sample :
  Build.calls (snd (Build.pc_cmake_build "/opt/glow"
                      (Build.pc_state Build.windows_pc)))
  = [["/usr/bin/cmake"; "-S/opt/glow"; "-B/opt/glow/build"; "-G";
      "MinGW Makefiles"];
     ["/usr/bin/cmake"; "--build"; "/opt/glow/build"; "--parallel"]].
Proof.
  destruct (Build.pc_cmake_build "/opt/glow" (Build.pc_state Build.windows_pc))
    as [r st'] eqn:Hb.
  assert (Hr : r = Build.Ok tt) by (vm_compute in Hb; congruence).
  subst r.
  destruct (cmake_build_ok Build.PC Build.pc_which Build.pc_resolve
              Build.pc_joinpath Build.platform Build.pc_environ_get
              Build.pc_call "/opt/glow" (Build.pc_state Build.windows_pc)
              st' Hb)
    as (dir & exe & w1 & Hd & He & _ & _ & _ & Hc & _).
  vm_compute in Hd, He. inversion Hd; inversion He; subst.
  cbn [snd]. rewrite Hc. reflexivity.
Defined.

Lemma get_exe_found_sample :
  Build.pc_get_exe "glowbasic" (Build.pc_state Build.ready_pc)
  = (Build.Ok "/opt/glow/build/glowbasic",
     Build.mkState Build.ready_pc []
       [("glowbasic", "/opt/glow/build/glowbasic")]).
Proof.
  apply (get_exe_found Build.PC Build.pc_which Build.pc_resolve
           Build.pc_joinpath Build.platform Build.pc_environ_get
           Build.pc_call "/opt/glow" "glowbasic" "/opt/glow/build/glowbasic"
           (Build.pc_state Build.ready_pc));
    try reflexivity; discriminate.
Defined.

Lemma get_exe_memo_sample :
  Build.pc_get_exe "glowbasic"
    (Build.mkState Build.bare_pc []
       (Build.cache (snd (Build.pc_get_exe "glowbasic"
                            (Build.pc_state Build.fresh_pc)))))
  = (Build.Ok "/opt/glow/build/glowbasic",
     Build.mkState Build.bare_pc []
       (Build.cache (snd (Build.pc_get_exe "glowbasic"
                            (Build.pc_state Build.fresh_pc))))).
Proof.
  apply (get_exe_memo Build.PC Build.pc_which Build.pc_resolve
           Build.pc_joinpath Build.platform Build.pc_environ_get
           Build.pc_call "/opt/glow" "glowbasic" "/opt/glow/build/glowbasic"
           (Build.pc_state Build.fresh_pc)
           (snd (Build.pc_get_exe "glowbasic" (Build.pc_state Build.fresh_pc)))).
  vm_compute. reflexivity.
Defined.

Lemma get_exe_failure_not_stored_sample :
  Build.cache (snd (Build.pc_get_exe "glowbasic"
                      (Build.pc_state Build.broken_pc))) = [].
Proof.
  destruct (get_exe_failure_not_stored Build.PC Build.pc_which
              Build.pc_resolve Build.pc_joinpath Build.platform
              Build.pc_environ_get Build.pc_call "/opt/glow" "glowbasic"
              (Build.CalledProcessError 2
                 ["/usr/bin/cmake"; "--build"; "/opt/glow/build";
                  "--parallel"])
              (Build.pc_state Build.broken_pc)
              (snd (Build.pc_get_exe "glowbasic"
                      (Build.pc_state Build.broken_pc))))
    as [Hc _]; [vm_compute; reflexivity|].
  exact Hc.
Defined.

Lemma get_exe_result_present_sample :
  Build.pc_which "glowbasic" (Some "/opt/glow/build")
    (Build.world (snd (Build.pc_get_exe "glowbasic"
                         (Build.pc_state Build.fresh_pc))))
  = Some "/opt/glow/build/glowbasic".
Proof.
  destruct (get_exe_result_present Build.PC Build.pc_which Build.pc_resolve
              Build.pc_joinpath Build.platform Build.pc_environ_get
              Build.pc_call "/opt/glow" "glowbasic"
              "/opt/glow/build/glowbasic"
              (Build.pc_state Build.fresh_pc)
              (snd (Build.pc_get_exe "glowbasic"
                      (Build.pc_state Build.fresh_pc))))
    as [Hw _]; [reflexivity|vm_compute; reflexivity|].
  exact Hw.
Defined.

Lemma get_exe_missing_after_build_sample :
  fst (Build.pc_get_exe "glowfancy" (Build.pc_state Build.fresh_pc))
  = Build.Raise Build.RuntimeError.
Proof.
  unfold Build.pc_get_exe.
  rewrite (get_exe_missing_after_build Build.PC Build.pc_which
             Build.pc_resolve Build.pc_joinpath Build.platform
             Build.pc_environ_get Build.pc_call "/opt/glow" "glowfancy"
             (Build.pc_state Build.fresh_pc)
             (snd (Build.pc_cmake_build "/opt/glow"
                     (Build.pc_state Build.fresh_pc))));
    vm_compute; reflexivity.
Defined.
